(** * gcs-bucket.py: buckets of a project not modified since a cutoff date

    A shallow embedding of [src/gcs-bucket.py].  The script resolves local
    credentials, lists the buckets of a project, checks every bucket on a
    thread pool against a cutoff date and writes the unmodified ones to a
    spreadsheet.

    Python values are embedded as follows.
    - An exception is a class tag with its [str()] text.  Every exception in
      the model is an instance of [Exception]; [KeyboardInterrupt] and
      [SystemExit] are not raised by the calls the script makes.
    - A computation is a function from the process state (environment
      variables, files written, log records) to an outcome (a value or a
      raised exception) and the new state.  State changes made before an
      exception is raised stay.
    - The storage service, the credential file, [strptime], the completion
      order of the thread pool and the file system are outside the script;
      they are fields of the records [Client.t] and [platform]. *)

From Stdlib Require Import ZArith String Ascii List Lia.
From stdpp Require Import base option list strings gmap fin_maps pretty.

Local Open Scope Z_scope.
Local Open Scope string_scope.
Local Open Scope list_scope.

(** ** Exceptions and outcomes *)

Inductive exc_class : Type :=
  | DefaultCredentialsError
  | FileNotFoundError
  | PermissionError
  | ValueError
  | AttributeError
  | TypeError
  | Forbidden
  | NotFound
  | OtherException (cls : string).

Record exn : Type := mk_exn { exc_type : exc_class; str_exn : string }.

Definition exc_class_eqb (a b : exc_class) : bool :=
  match a, b with
  | DefaultCredentialsError, DefaultCredentialsError => true
  | FileNotFoundError, FileNotFoundError => true
  | PermissionError, PermissionError => true
  | ValueError, ValueError => true
  | AttributeError, AttributeError => true
  | TypeError, TypeError => true
  | Forbidden, Forbidden => true
  | NotFound, NotFound => true
  | OtherException x, OtherException y => String.eqb x y
  | _, _ => false
  end.

(** [isinstance(e, (c1, ..., cn))] for the classes above, none of which
    derives from another one of them. *)
Definition isinstance (e : exn) (classes : list exc_class) : bool :=
  existsb (exc_class_eqb (exc_type e)) classes.

Inductive outcome (A : Type) : Type :=
  | Return (a : A)
  | Raise (e : exn).
Arguments Return {A} a.
Arguments Raise {A} e.

(** ** Date-times

    [datetime.datetime] compares naive values field by field, in the order
    year, month, day, hour, minute, second, microsecond.  A naive value has
    [tzinfo = None]; the type [naive_datetime] holds those.  The cutoff is
    produced by [strptime] with a format that has no zone directive, so it
    is naive, and both operands of every [>] in the script are naive. *)

Record naive_datetime : Type := mk_naive {
  year : Z; month : Z; day : Z;
  hour : Z; minute : Z; second : Z; microsecond : Z
}.

(** [tzinfo] is the offset from UTC in minutes, or [None]. *)
Record datetime : Type := mk_datetime {
  wall : naive_datetime;
  tzinfo : option Z
}.

(** [dt.replace(tzinfo=None)]: the same wall-clock fields, no conversion. *)
Definition replace_tzinfo_None (dt : datetime) : naive_datetime := wall dt.

Definition timetuple (d : naive_datetime) : list Z :=
  [year d; month d; day d; hour d; minute d; second d; microsecond d].

Fixpoint lex_compare (a b : list Z) : comparison :=
  match a, b with
  | [], [] => Eq
  | [], _ :: _ => Lt
  | _ :: _, [] => Gt
  | x :: a', y :: b' =>
      match Z.compare x y with
      | Eq => lex_compare a' b'
      | c => c
      end
  end.

(** [datetime._cmp] *)
Definition naive_cmp (a b : naive_datetime) : comparison :=
  lex_compare (timetuple a) (timetuple b).

(** [a > b] *)
Definition naive_gt (a b : naive_datetime) : bool :=
  match naive_cmp a b with Gt => true | _ => false end.

(** [a <= b]: "at or before" *)
Definition naive_le (a b : naive_datetime) : bool :=
  match naive_cmp a b with Gt => false | _ => true end.



(** *** [strftime('%Y-%m-%d %H:%M:%S')]

    As CPython renders it through the C library of Linux (glibc): [%Y] is
    the year in decimal without leading zeros, so a year below 1000 has
    fewer than four digits; the other directives are zero-padded to two.
    The digits below are those of a value within the range [datetime]
    allows. *)

Definition digit (k : Z) : ascii := ascii_of_nat (48 + Z.to_nat k).

Definition pad2 (n : Z) (rest : string) : string :=
  String (digit (n / 10)) (String (digit (n mod 10)) rest).

Definition pad4 (n : Z) (rest : string) : string :=
  String (digit (n / 1000)) (String (digit (n / 100 mod 10))
    (String (digit (n / 10 mod 10)) (String (digit (n mod 10)) rest))).

(** [%Y] for a year from 1 to 9999 *)
Definition year_digits (y : Z) (rest : string) : string :=
  if (y <? 10)%Z then String (digit y) rest
  else if (y <? 100)%Z then pad2 y rest
  else if (y <? 1000)%Z
       then String (digit (y / 100)) (pad2 (y mod 100) rest)
  else pad4 y rest.

Definition strftime_Ymd_HMS (dt : datetime) : string :=
  let d := wall dt in
  year_digits (year d) (String "-" (pad2 (month d) (String "-" (pad2 (day d)
    (String " " (pad2 (hour d) (String ":" (pad2 (minute d)
      (String ":" (pad2 (second d) EmptyString)))))))))).



(** ** The storage service, as the client library presents it *)

Module Blob.
Record t : Type := mk { name : string; updated : option datetime }.
End Blob.

Module Bucket.
(** What the service returns for a bucket; [updated] is tested for
    [None] by the script. *)
Record properties : Type := mk_properties {
  p_time_created : datetime;
  p_updated : option datetime;
  p_location : option string;
  p_storage_class : option string
}.
Record t : Type := mk { name : string; props : properties }.
Definition time_created (b : t) : datetime := p_time_created (props b).
Definition updated (b : t) : option datetime := p_updated (props b).
Definition location (b : t) : option string := p_location (props b).
Definition storage_class (b : t) : option string := p_storage_class (props b).
End Bucket.

(** The lazy iterator that [list_blobs] returns: each step yields a blob,
    stops, or raises (a page request that fails). *)
Inductive blob_iterator : Type :=
  | StopIteration
  | Yield (b : Blob.t) (rest : blob_iterator)
  | IterRaise (e : exn).

Module Client.
(** A client bound to a project: what each request answers.  The service
    is read only for the script, so an answer depends on the request
    alone. *)
Record t : Type := mk {
  project : string;
  list_buckets : outcome (list Bucket.t);
  bucket_resource : string -> outcome Bucket.properties;
  list_blobs : string -> blob_iterator
}.
End Client.

(** ** The process state and the computation monad *)

Inductive level : Type := INFO | ERROR.

Record cell : Type := mk_cell { value : option string; font_bold : bool }.

Record worksheet : Type := mk_worksheet {
  title : string;
  cells : gmap (nat * nat) cell;
  column_width : gmap string nat
}.

(** What a path holds: a saved workbook, or what is left of a file that was
    opened for writing (which empties it) and not written to its end. *)
Inductive file : Type :=
  | Workbook (wb : worksheet)
  | Partial.

Record process : Type := mk_process {
  environ : gmap string string;
  files : gmap string file;
  log : list (level * string)
}.

Definition py (A : Type) : Type := process -> outcome A * process.

Definition ret {A} (a : A) : py A := fun p => (Return a, p).

Definition raise {A} (e : exn) : py A := fun p => (Raise e, p).

Definition bind {A B} (m : py A) (k : A -> py B) : py B :=
  fun p =>
    match m p with
    | (Return a, p') => k a p'
    | (Raise e, p') => (Raise e, p')
    end.

Notation "'let*' x ':=' m 'in' k" := (bind m (fun x => k))
  (at level 10, x name, m at level 100, k at level 200).
Notation "m ';;' k" := (bind m (fun _ => k))
  (at level 100, k at level 200, right associativity).

(** An outcome of the outside world, taken as it is. *)
Definition lift {A} (o : outcome A) : py A := fun p => (o, p).

(** [try: body except (classes) as e: handler e]; an exception of another
    class passes through. *)
Definition try_except {A} (body : py A) (classes : list exc_class)
    (handler : exn -> py A) : py A :=
  fun p =>
    match body p with
    | (Return a, p') => (Return a, p')
    | (Raise e, p') =>
        if isinstance e classes then handler e p' else (Raise e, p')
    end.

(** [try: body except Exception as e: handler e] *)
Definition try_except_Exception {A} (body : py A) (handler : exn -> py A)
    : py A :=
  fun p =>
    match body p with
    | (Return a, p') => (Return a, p')
    | (Raise e, p') => handler e p'
    end.

(** The state with more records in the log. *)
Definition add_log (p : process) (records : list (level * string))
    : process :=
  {| environ := environ p; files := files p; log := log p ++ records |}.

Definition logging (lvl : level) (msg : string) : py unit :=
  fun p => (Return tt, add_log p [(lvl, msg)]).

Definition logging_error := logging ERROR.
Definition logging_info := logging INFO.

(** [os.environ[k] = v] *)
Definition environ_set (k v : string) : py unit :=
  fun p => (Return tt,
            {| environ := <[k := v]> (environ p); files := files p;
               log := log p |}).

Definition get_environ : py (gmap string string) :=
  fun p => (Return (environ p), p).

(** ** The bucket scanner *)

Module ScanResult.
(** The dictionary that [check_bucket_modification] returns, by key. *)
Record t : Type := mk {
  name : string;
  created : datetime;
  last_modified : datetime;
  location : option string;
  storage_class : option string
}.
End ScanResult.

(** [client.get_bucket(bucket_name)]: the library builds the bucket object
    with the name it was asked for and loads the properties the service
    returns. *)
Definition get_bucket (client : Client.t) (bucket_name : string)
    : py Bucket.t :=
  let* properties := lift (Client.bucket_resource client bucket_name) in
  ret (Bucket.mk bucket_name properties).

(** [x.replace(tzinfo=None)] where [x] may be [None] *)
Definition replace_of (x : option datetime) : py naive_datetime :=
  match x with
  | Some dt => ret (replace_tzinfo_None dt)
  | None =>
      raise (mk_exn AttributeError
               "'NoneType' object has no attribute 'replace'")
  end.

(** [bucket.updated and bucket.updated.replace(tzinfo=None) > cutoff_date]
    as a condition; a [datetime] is never falsy. *)
Definition updated_after (u : option datetime) (cutoff_date : naive_datetime)
    : bool :=
  match u with
  | None => false
  | Some dt => naive_gt (replace_tzinfo_None dt) cutoff_date
  end.

(** [bucket.updated or bucket.time_created] *)
Definition updated_or_created (bucket : Bucket.t) : datetime :=
  match Bucket.updated bucket with
  | Some dt => dt
  | None => Bucket.time_created bucket
  end.

(** The loop over the blobs (lines 50 to 52).  [Some v]: the function
    returned [v] from inside the loop; [None]: the loop ran to its end. *)
Fixpoint for_blob_in (blobs : blob_iterator) (cutoff_date : naive_datetime)
    : py (option (option ScanResult.t)) :=
  match blobs with
  | StopIteration => ret None
  | IterRaise e => raise e
  | Yield blob rest =>
      let* t := replace_of (Blob.updated blob) in
      if naive_gt t cutoff_date then ret (Some None)
      else for_blob_in rest cutoff_date
  end.

Definition check_bucket_modification (client : Client.t)
    (bucket_name : string) (cutoff_date : naive_datetime)
    : py (option ScanResult.t) :=
  try_except_Exception
    (let* bucket := get_bucket client bucket_name in
     if naive_gt (replace_tzinfo_None (Bucket.time_created bucket)) cutoff_date
     then ret None
     else if updated_after (Bucket.updated bucket) cutoff_date
     then ret None
     else
       let blobs := Client.list_blobs client bucket_name in
       let* returned := for_blob_in blobs cutoff_date in
       match returned with
       | Some v => ret v
       | None =>
           ret (Some {| ScanResult.name := Bucket.name bucket;
                        ScanResult.created := Bucket.time_created bucket;
                        ScanResult.last_modified := updated_or_created bucket;
                        ScanResult.location := Bucket.location bucket;
                        ScanResult.storage_class :=
                          Bucket.storage_class bucket |})
       end)
    (fun e =>
       logging_error
         ("Error processing bucket " +:+ bucket_name +:+ ": " +:+ str_exn e) ;;
       ret None).

(** ** What the script relies on outside itself *)

Record credentials : Type := mk_credentials { token : string }.

Record platform : Type := mk_platform {
  (** [datetime.datetime.strptime(s, "%Y-%m-%d")]: a naive date-time or
      [ValueError] *)
  strptime_Ymd : string -> outcome naive_datetime;
  (** [os.path.expanduser]: reads [HOME] from the environment *)
  expanduser : gmap string string -> string -> string;
  (** [Credentials.from_authorized_user_file] *)
  from_authorized_user_file : string -> outcome credentials;
  (** [storage.Client(project=..., credentials=...)] *)
  storage_Client : string -> credentials -> outcome Client.t;
  (** [concurrent.futures.as_completed]: the futures handed in, in the
      order in which they complete *)
  as_completed : forall A : Type, list A -> list A;
  as_completed_perm : forall (A : Type) (l : list A),
    Permutation (as_completed A l) l;
  (** the exception, if any, that writing the given path raises *)
  save_error : string -> option exn;
  (** whether that exception comes after the path was opened for writing *)
  opened_before_error : string -> bool
}.

(** ** The credential resolver *)

Definition get_storage_client (os : platform) (project_id : string)
    : py Client.t :=
  environ_set "GOOGLE_CLOUD_PROJECT" project_id ;;
  try_except
    (let* env := get_environ in
     let* credentials :=
       lift (from_authorized_user_file os
               (expanduser os env
                  "~/.config/gcloud/application_default_credentials.json")) in
     lift (storage_Client os project_id credentials))
    [DefaultCredentialsError; FileNotFoundError]
    (fun e =>
       logging_error
         "Unable to find local credentials. Please run 'gcloud auth application-default login'" ;;
       raise e).

(** ** The concurrent scan coordinator *)

(** [ThreadPoolExecutor(max_workers=n)] refuses a pool without workers. *)
Definition ThreadPoolExecutor (max_workers : Z) : py unit :=
  if (max_workers <=? 0)%Z
  then raise (mk_exn ValueError "max_workers must be greater than 0")
  else ret tt.

(** A future holds what its task returned or raised; running a task never
    raises into the submitter. *)
Fixpoint run_tasks {A} (tasks : list (py A)) : py (list (outcome A)) :=
  match tasks with
  | [] => ret []
  | task :: rest =>
      fun p =>
        let '(o, p') := task p in
        (let* os := run_tasks rest in ret (o :: os)) p'
  end.

(** The submitted tasks only read the client and append to the log; they
    are run here one after the other in the order in which they complete,
    and [as_completed] yields their futures in that order. *)
Definition submit_and_complete {A} (os : platform) (tasks : list (py A))
    : py (list (outcome A)) :=
  run_tasks (as_completed os (py A) tasks).

(** The loop of lines 74 to 77 over the completed futures, on the list
    [unmodified_buckets]; [future.result()] raises what the task raised,
    which ends the loop with the list as it is. *)
Fixpoint collect_results (completed : list (outcome (option ScanResult.t)))
    (unmodified_buckets : list ScanResult.t)
    : list ScanResult.t * option exn :=
  match completed with
  | [] => (unmodified_buckets, None)
  | Raise e :: _ => (unmodified_buckets, Some e)
  | Return None :: rest => collect_results rest unmodified_buckets
  | Return (Some result) :: rest =>
      collect_results rest (unmodified_buckets ++ [result])
  end.

Definition get_unmodified_buckets (os : platform) (client : Client.t)
    (cutoff_date : naive_datetime) (max_workers : Z)
    : py (list ScanResult.t) :=
  let unmodified_buckets : list ScanResult.t := [] in
  let handler (e : exn) (unmodified_buckets : list ScanResult.t) :=
    logging_error ("Error in get_unmodified_buckets: " +:+ str_exn e) ;;
    ret unmodified_buckets in
  fun p =>
    match
      (let* buckets := lift (Client.list_buckets client) in
       ThreadPoolExecutor max_workers ;;
       let* completed :=
         submit_and_complete os
           (map (fun bucket =>
                   check_bucket_modification client (Bucket.name bucket)
                     cutoff_date) buckets) in
       ret (collect_results completed unmodified_buckets)) p
    with
    | (Return (unmodified_buckets, None), p') =>
        (Return unmodified_buckets, p')
    | (Return (unmodified_buckets, Some e), p') =>
        handler e unmodified_buckets p'
    | (Raise e, p') => handler e unmodified_buckets p'
    end.

(** ** The report writer *)

Definition headers : list string :=
  ["Bucket Name"; "Created Date"; "Last Modified Date"; "Location";
   "Storage Class"].

(** [enumerate(l, start=n)] *)
Fixpoint enumerate {A} (l : list A) (start : nat) : list (nat * A) :=
  match l with
  | [] => []
  | x :: l' => (start, x) :: enumerate l' (S start)
  end.

Definition Workbook_active : worksheet :=
  {| title := "Sheet"; cells := ∅; column_width := ∅ |}.

Definition set_title (ws : worksheet) (t : string) : worksheet :=
  {| title := t; cells := cells ws; column_width := column_width ws |}.

(** [ws.cell(row=r, column=c, value=v)]: the cell is created when absent
    and its value set (the store itself; [cell_write] below has the check
    of a text that comes first). *)
Definition ws_cell (ws : worksheet) (r c : nat) (v : option string)
    : worksheet :=
  let old_bold :=
    match cells ws !! (r, c) with Some x => font_bold x | None => false end in
  {| title := title ws;
     cells := <[(r, c) := {| value := v; font_bold := old_bold |}]> (cells ws);
     column_width := column_width ws |}.

(** [ws.cell(r, c).font = Font(bold=True)] on a cell that exists *)
Definition set_font_bold (ws : worksheet) (r c : nat) : worksheet :=
  {| title := title ws;
     cells := alter (fun x => {| value := value x; font_bold := true |})
                (r, c) (cells ws);
     column_width := column_width ws |}.

(** The loops of lines 91 to 101 as they store, without the check of the
    texts; [header_loop], [row_writes] and [data_loop] below are the loops
    with the check that [ws.cell] makes. *)
Definition write_headers (ws : worksheet) : worksheet :=
  fold_left
    (fun ws '(col, header) => set_font_bold (ws_cell ws 1 col (Some header)) 1 col)
    (enumerate headers 1) ws.

Definition write_row (ws : worksheet) (row : nat) (bucket : ScanResult.t)
    : worksheet :=
  let ws := ws_cell ws row 1 (Some (ScanResult.name bucket)) in
  let ws := ws_cell ws row 2
              (Some (strftime_Ymd_HMS (ScanResult.created bucket))) in
  let ws := ws_cell ws row 3
              (Some (strftime_Ymd_HMS (ScanResult.last_modified bucket))) in
  let ws := ws_cell ws row 4 (ScanResult.location bucket) in
  ws_cell ws row 5 (ScanResult.storage_class bucket).

Definition write_data (ws : worksheet) (buckets : list ScanResult.t)
    : worksheet :=
  fold_left (fun ws '(row, bucket) => write_row ws row bucket)
    (enumerate buckets 2) ws.

Definition max_row (ws : worksheet) : nat :=
  max_list ((elements (dom (cells ws))).*1).

Definition max_column (ws : worksheet) : nat :=
  max_list ((elements (dom (cells ws))).*2).

(** The values of column [c], top to bottom; a missing cell reads [None]. *)
Definition column_values (ws : worksheet) (c : nat) : list (option string) :=
  map (fun r => match cells ws !! (r, c) with
                | Some x => value x
                | None => None
                end)
    (seq 1 (max_row ws)).

(** [str(v)] and [len(v)] of a cell value; [len(None)] raises. *)
Definition str_value (v : option string) : string :=
  match v with Some s => s | None => "None" end.

Definition len_value (v : option string) : outcome nat :=
  match v with
  | Some s => Return (String.length s)
  | None => Raise (mk_exn TypeError "object of type 'NoneType' has no len()")
  end.

(** Lines 108 to 112: the comparison uses [len(str(v))], the assignment
    [len(v)]; what it raises is passed over. *)
Definition longest (max_length : nat) (v : option string) : nat :=
  if (max_length <? String.length (str_value v))%nat
  then match len_value v with
       | Return n => n
       | Raise _ => max_length
       end
  else max_length.

(** [column_letter] of the columns [A] to [Z]; the sheet has five. *)
Definition column_letter (c : nat) : string :=
  String (ascii_of_nat (64 + c)) EmptyString.

Definition adjust_column (ws : worksheet) (c : nat) : worksheet :=
  let max_length := fold_left longest (column_values ws c) 0%nat in
  let adjusted_width := (max_length + 2)%nat in
  {| title := title ws; cells := cells ws;
     column_width := <[column_letter c := adjusted_width]> (column_width ws) |}.

Definition adjust_columns (ws : worksheet) : worksheet :=
  fold_left adjust_column (seq 1 (max_column ws)) ws.

(** The sheet that lines 85 to 114 build when every cell takes its text
    as it is given ([ws_cell], [write_headers], [write_row] and
    [write_data] above store without a check). *)
Definition build_sheet (buckets : list ScanResult.t) : worksheet :=
  let ws := set_title Workbook_active "Unmodified Buckets" in
  let ws := write_headers ws in
  let ws := write_data ws buckets in
  adjust_columns ws.

(** *** The cell writes as the library does them

    Setting the value of a cell to a text goes through openpyxl's
    [Cell.check_string]: the text is cut to 32767 characters and refused
    with [IllegalCharacterError] when it holds a control character other
    than tab, line feed and carriage return. *)

Definition illegal_character (c : ascii) : bool :=
  let n := nat_of_ascii c in
  (n <=? 8)%nat || ((11 <=? n)%nat && (n <=? 12)%nat)
  || ((14 <=? n)%nat && (n <=? 31)%nat).

(** [s[:n]] *)
Fixpoint truncate (n : nat) (s : string) : string :=
  match n, s with
  | S n', String c s' => String c (truncate n' s')
  | _, _ => EmptyString
  end.

Definition check_string (s : string) : outcome string :=
  let v := truncate (Z.to_nat 32767) s in
  if existsb illegal_character (list_ascii_of_string v)
  then Raise (mk_exn (OtherException "IllegalCharacterError")
                (v +:+ " cannot be used in worksheets."))
  else Return v.

Definition obind {A B} (o : outcome A) (k : A -> outcome B) : outcome B :=
  match o with
  | Return a => k a
  | Raise e => Raise e
  end.

(** [ws.cell(row=r, column=c, value=v)]: a value that is not [None] is
    checked and then stored. *)
Definition cell_write (ws : worksheet) (r c : nat) (v : option string)
    : outcome worksheet :=
  match v with
  | None => Return (ws_cell ws r c None)
  | Some s => obind (check_string s) (fun v' => Return (ws_cell ws r c (Some v')))
  end.

(** A loop whose body may raise; the first exception ends it. *)
Fixpoint for_each {A} (body : worksheet -> A -> outcome worksheet)
    (items : list A) (ws : worksheet) : outcome worksheet :=
  match items with
  | [] => Return ws
  | x :: items' => obind (body ws x) (for_each body items')
  end.

(** Lines 91 to 93 *)
Definition header_loop (ws : worksheet) : outcome worksheet :=
  for_each
    (fun ws '(col, header) =>
       obind (cell_write ws 1 col (Some header))
         (fun ws => Return (set_font_bold ws 1 col)))
    (enumerate headers 1) ws.

(** Lines 97 to 101 *)
Definition row_writes (ws : worksheet) (row : nat) (bucket : ScanResult.t)
    : outcome worksheet :=
  obind (cell_write ws row 1 (Some (ScanResult.name bucket))) (fun ws =>
  obind (cell_write ws row 2
           (Some (strftime_Ymd_HMS (ScanResult.created bucket)))) (fun ws =>
  obind (cell_write ws row 3
           (Some (strftime_Ymd_HMS (ScanResult.last_modified bucket))))
    (fun ws =>
  obind (cell_write ws row 4 (ScanResult.location bucket)) (fun ws =>
  cell_write ws row 5 (ScanResult.storage_class bucket))))).

(** Lines 96 to 101 *)
Definition data_loop (ws : worksheet) (buckets : list ScanResult.t)
    : outcome worksheet :=
  for_each (fun ws '(row, bucket) => row_writes ws row bucket)
    (enumerate buckets 2) ws.

(** Lines 85 to 114: the workbook to save, or the exception of the first
    cell write that fails. *)
Definition build_workbook (buckets : list ScanResult.t) : outcome worksheet :=
  let ws := set_title Workbook_active "Unmodified Buckets" in
  obind (header_loop ws) (fun ws =>
  obind (data_loop ws buckets) (fun ws =>
  Return (adjust_columns ws))).

(** [wb.save(filename)]: the file is replaced by the workbook, or the write
    raises; a write that raises after the path was opened leaves an
    unfinished file there, one that raises at the open leaves the files as
    they are. *)
Definition wb_save (os : platform) (wb : worksheet) (filename : string)
    : py unit :=
  fun p =>
    match save_error os filename with
    | Some e =>
        (Raise e,
         if opened_before_error os filename
         then {| environ := environ p;
                 files := <[filename := Partial]> (files p);
                 log := log p |}
         else p)
    | None =>
        (Return tt,
         {| environ := environ p;
            files := <[filename := Workbook wb]> (files p);
            log := log p |})
    end.

Definition write_to_excel (os : platform) (buckets : list ScanResult.t)
    (filename : string) : py unit :=
  try_except_Exception
    (let* wb := lift (build_workbook buckets) in
     wb_save os wb filename ;;
     logging_info ("Results written to " +:+ filename))
    (fun e => logging_error ("Error writing to Excel: " +:+ str_exn e)).

(** ** The entry point *)

(** What [parse_arguments] returns. *)
Record arguments : Type := mk_arguments {
  project_id : string;
  cutoff_date : string;
  output : string;
  max_workers : Z
}.

(** [main] from line 124 on, for the record that [parse_arguments]
    returned at line 122.  (On a command line that does not parse, and on
    [-h], argparse ends the process by [SystemExit] at line 122, before
    anything below runs; that exit is not part of this function.)
    [Return tt]: [main] returned and the process ends normally; [Raise e]:
    [e] left [main] uncaught and ends the process. *)
Definition main (os : platform) (args : arguments) : py unit :=
  let* parsed :=
    try_except
      (let* d := lift (strptime_Ymd os (cutoff_date args)) in ret (Some d))
      [ValueError]
      (fun _ =>
         logging_error "Invalid date format. Please use YYYY-MM-DD." ;;
         ret None) in
  match parsed with
  | None => ret tt
  | Some cutoff =>
      logging_info
        ("Searching for unmodified buckets in project " +:+ project_id args
         +:+ " since " +:+ cutoff_date args) ;;
      try_except_Exception
        (let* client := get_storage_client os (project_id args) in
         let* unmodified_buckets :=
           get_unmodified_buckets os client cutoff (max_workers args) in
         match unmodified_buckets with
         | _ :: _ =>
             write_to_excel os unmodified_buckets (output args) ;;
             logging_info
               ("Found " +:+ pretty (length unmodified_buckets)
                +:+ " unmodified buckets")
         | [] => logging_info "No unmodified buckets found"
         end)
        (fun e => logging_error ("An error occurred: " +:+ str_exn e))
  end.

(** ** The vocabulary of the specification *)

(** The blobs [l], then what [tail] does. *)
Definition iter_app (l : list Blob.t) (tail : blob_iterator)
    : blob_iterator :=
  fold_right Yield tail l.

(** The objects that a listing yields before it stops or fails. *)
Fixpoint yielded (blobs : blob_iterator) : list Blob.t :=
  match blobs with
  | StopIteration => []
  | IterRaise _ => []
  | Yield b rest => b :: yielded rest
  end.

(** The listing runs to its end without an error. *)
Fixpoint completes (blobs : blob_iterator) : bool :=
  match blobs with
  | StopIteration => true
  | IterRaise _ => false
  | Yield _ rest => completes rest
  end.

(** "At or before the cutoff", on the timezone-stripped time. *)
Definition at_or_before (cutoff : naive_datetime) (t : datetime) : Prop :=
  naive_le (replace_tzinfo_None t) cutoff = true.

(** An object has a last-modified time at or before the cutoff. *)
Definition object_unmodified (cutoff : naive_datetime) (o : Blob.t) : Prop :=
  exists t, Blob.updated o = Some t /\ at_or_before cutoff t.

(** The three recency checks of the specification: creation, metadata
    update if there is one, every object. *)
Definition passes_recency_checks (cutoff : naive_datetime)
    (b : Bucket.properties) (objects : list Blob.t) : Prop :=
  at_or_before cutoff (Bucket.p_time_created b) /\
  (forall u, Bucket.p_updated b = Some u -> at_or_before cutoff u) /\
  Forall (object_unmodified cutoff) objects.

(** A bucket appears in a result set: some result carries its name. *)
Definition appears (bucket_name : string) (results : list ScanResult.t)
    : Prop :=
  exists r, In r results /\ ScanResult.name r = bucket_name.

(** The Scan Result of the specification for a bucket: its name, creation
    time, the metadata-update time if present and the creation time
    otherwise, location and storage class. *)
Definition result_for (bucket_name : string) (b : Bucket.properties)
    : ScanResult.t :=
  {| ScanResult.name := bucket_name;
     ScanResult.created := Bucket.p_time_created b;
     ScanResult.last_modified :=
       match Bucket.p_updated b with
       | Some u => u
       | None => Bucket.p_time_created b
       end;
     ScanResult.location := Bucket.p_location b;
     ScanResult.storage_class := Bucket.p_storage_class b |}.

Definition initial_process : process :=
  {| environ := ∅; files := ∅; log := [] |}.

(** What the scan of one bucket returns and what it logs, read off a run
    from the initial state. *)
Definition value_of {A} (task : py (option A)) : option A :=
  match fst (task initial_process) with
  | Return v => v
  | Raise _ => None
  end.

Definition scanned (client : Client.t) (bucket_name : string)
    (cutoff_date : naive_datetime) : option ScanResult.t :=
  value_of (check_bucket_modification client bucket_name cutoff_date).

Definition log_of {A} (task : py A) : list (level * string) :=
  log (snd (task initial_process)).

Definition scan_log (client : Client.t) (bucket_name : string)
    (cutoff_date : naive_datetime) : list (level * string) :=
  log_of (check_bucket_modification client bucket_name cutoff_date).

(** A task that returns in every state and only adds to the log. *)
Definition returns_and_logs {A} (task : py (option A)) : Prop :=
  forall p, task p = (Return (value_of task), add_log p (log_of task)).

(** The diagnostic of a failed scan. *)
Definition scan_error (bucket_name : string) (e : exn) : level * string :=
  (ERROR, "Error processing bucket " +:+ bucket_name +:+ ": " +:+ str_exn e).

(** The diagnostic of a failed listing of the project. *)
Definition listing_error (e : exn) : level * string :=
  (ERROR, "Error in get_unmodified_buckets: " +:+ str_exn e).








(** The state after [os.environ["GOOGLE_CLOUD_PROJECT"] = project]. *)
Definition with_project (project : string) (p : process) : process :=
  {| environ := <["GOOGLE_CLOUD_PROJECT" := project]> (environ p);
     files := files p; log := log p |}.

(** The state after the sheet [wb] was saved as [filename]. *)
Definition with_file (filename : string) (wb : worksheet) (p : process)
    : process :=
  {| environ := environ p; files := <[filename := Workbook wb]> (files p);
     log := log p |}.

(** The state after a save of [filename] that failed once the path was
    open. *)
Definition with_partial (filename : string) (p : process) : process :=
  {| environ := environ p; files := <[filename := Partial]> (files p);
     log := log p |}.

(** The path of the credential file, as [expanduser] gives it in the
    environment [env]. *)
Definition adc_path (os : platform) (env : gmap string string) : string :=
  expanduser os env "~/.config/gcloud/application_default_credentials.json".

(** The log records of [get_storage_client] and [main]. *)
Definition no_credentials_record : level * string :=
  (ERROR,
   "Unable to find local credentials. Please run 'gcloud auth application-default login'").

Definition searching_record (args : arguments) : level * string :=
  (INFO, "Searching for unmodified buckets in project " +:+ project_id args
         +:+ " since " +:+ cutoff_date args).

Definition main_error (e : exn) : level * string :=
  (ERROR, "An error occurred: " +:+ str_exn e).

Definition none_found_record : level * string :=
  (INFO, "No unmodified buckets found").

Definition found_record (n : nat) : level * string :=
  (INFO, "Found " +:+ pretty n +:+ " unmodified buckets").

(** The run of the coordinator on a listed project returns [results]. *)
Definition scan_returns (os : platform) (client : Client.t)
    (cutoff : naive_datetime) (max_workers : Z) (p : process)
    (results : list ScanResult.t) : Prop :=
  exists p', get_unmodified_buckets os client cutoff max_workers p
             = (Return results, p').

(** Membership as the specification words it, for a listed bucket [B]: the
    three recency checks alone decide. *)
Definition membership_by_recency_alone (client : Client.t)
    (cutoff : naive_datetime) (results : list ScanResult.t) (B : Bucket.t)
    : Prop :=
  appears (Bucket.name B) results
  <-> passes_recency_checks cutoff (Bucket.props B)
        (yielded (Client.list_blobs client (Bucket.name B))).

(** The record of the failed comparison of an object without a time. *)
Definition undated_error (bucket_name : string) : level * string :=
  scan_error bucket_name
    (mk_exn AttributeError "'NoneType' object has no attribute 'replace'").

(** An object without a last-modified time makes the scan of its bucket a
    logged failure, whatever else the bucket holds. *)
Definition undated_always_a_failure (client : Client.t)
    (bucket_name : string) (cutoff : naive_datetime) : Prop :=
  (exists o, In o (yielded (Client.list_blobs client bucket_name))
             /\ Blob.updated o = None) ->
  scanned client bucket_name cutoff = None
  /\ In (undated_error bucket_name) (scan_log client bucket_name cutoff).

(** The process ends by an exception that leaves [main]. *)
Definition terminates_by_raising (os : platform) (args : arguments)
    (p : process) : Prop :=
  exists e p', main os args p = (Raise e, p').

(** ** A project to run the script on *)

Module Sample.

Definition utc (y mo d h mi s : Z) : datetime :=
  mk_datetime (mk_naive y mo d h mi s 0) (Some 0).

(** [strptime("2024-01-01", "%Y-%m-%d")] *)
Definition cutoff : naive_datetime := mk_naive 2024 1 1 0 0 0 0.

Definition old_object : Blob.t :=
  Blob.mk "logs/2022.txt" (Some (utc 2022 7 9 4 5 6)).
Definition last_minute_object : Blob.t :=
  Blob.mk "logs/2023.txt" (Some (utc 2023 12 31 23 59 59)).
Definition new_object : Blob.t :=
  Blob.mk "logs/2024.txt" (Some (utc 2024 2 3 12 0 0)).
Definition undated_object : Blob.t := Blob.mk "pending" None.

Definition archive : Bucket.properties :=
  Bucket.mk_properties (utc 2020 5 17 10 30 0)
    (Some (utc 2021 3 2 8 15 42)) (Some "US") (Some "STANDARD").
Definition fresh : Bucket.properties :=
  Bucket.mk_properties (utc 2024 6 1 9 0 0) None (Some "EU") (Some "STANDARD").
Definition boundary : Bucket.properties :=
  Bucket.mk_properties (utc 2024 1 1 0 0 0) None (Some "US") (Some "NEARLINE").
Definition plain : Bucket.properties :=
  Bucket.mk_properties (utc 2019 11 30 18 45 7) None (Some "ASIA")
    (Some "COLDLINE").

Definition forbidden : exn :=
  mk_exn Forbidden "403 GET: caller does not have storage.buckets.get access".
Definition unavailable : exn :=
  mk_exn (OtherException "ServiceUnavailable") "503 GET: backend error".

Definition service : list (string * (outcome Bucket.properties * blob_iterator)) :=
  [("archive", (Return archive,
                Yield old_object (Yield last_minute_object StopIteration)));
   ("fresh", (Return fresh, StopIteration));
   ("boundary", (Return boundary, StopIteration));
   ("locked", (Raise forbidden, StopIteration));
   ("flaky", (Return plain, Yield old_object (IterRaise unavailable)));
   ("stale-undated", (Return plain,
                      Yield old_object (Yield undated_object StopIteration)));
   ("busy-undated", (Return plain,
                     Yield new_object (Yield undated_object StopIteration)))].

Fixpoint assoc {A} (k : string) (l : list (string * A)) : option A :=
  match l with
  | [] => None
  | (k', v) :: l' => if String.eqb k k' then Some v else assoc k l'
  end.

Definition not_found : exn := mk_exn NotFound "404 GET: bucket not found".

Definition bucket_resource (bucket_name : string)
    : outcome Bucket.properties :=
  match assoc bucket_name service with
  | Some (o, _) => o
  | None => Raise not_found
  end.

Definition list_blobs (bucket_name : string) : blob_iterator :=
  match assoc bucket_name service with
  | Some (_, blobs) => blobs
  | None => IterRaise not_found
  end.

(** The listing describes every bucket, also the one that may not be
    read. *)
Definition listing : list Bucket.t :=
  [Bucket.mk "archive" archive; Bucket.mk "fresh" fresh;
   Bucket.mk "boundary" boundary; Bucket.mk "locked" plain;
   Bucket.mk "flaky" plain; Bucket.mk "stale-undated" plain;
   Bucket.mk "busy-undated" plain].

Definition client : Client.t :=
  Client.mk "demo-project" (Return listing) bucket_resource list_blobs.

Definition client_without_listing : Client.t :=
  Client.mk "demo-project" (Raise forbidden) bucket_resource list_blobs.

Definition client_nothing_old : Client.t :=
  Client.mk "demo-project" (Return [Bucket.mk "fresh" fresh])
    bucket_resource list_blobs.

Definition strptime (s : string) : outcome naive_datetime :=
  if String.eqb s "2024-01-01" then Return cutoff
  else Raise (mk_exn ValueError
                ("time data '" +:+ s +:+ "' does not match format '%Y-%m-%d'")).

Definition home (env : gmap string string) (path : string) : string :=
  match env !! "HOME" with
  | Some h => h +:+ String.substring 1 (String.length path) path
  | None => path
  end.

Definition adc : string :=
  "/home/op/.config/gcloud/application_default_credentials.json".

Definition read_adc (path : string) : outcome credentials :=
  if String.eqb path adc then Return (mk_credentials "ya29.token")
  else Raise (mk_exn FileNotFoundError
                ("[Errno 2] No such file or directory: '" +:+ path +:+ "'")).

Definition no_adc (path : string) : outcome credentials :=
  Raise (mk_exn FileNotFoundError
           ("[Errno 2] No such file or directory: '" +:+ path +:+ "'")).

Definition read_only (filename : string) : option exn :=
  if String.eqb filename "/proc/report.xlsx"
  then Some (mk_exn PermissionError
               "[Errno 13] Permission denied: '/proc/report.xlsx'")
  else None.

(** The futures complete in the reverse of the order of submission. *)
Definition last_first (A : Type) (l : list A) : list A := rev l.

Definition last_first_perm (A : Type) (l : list A)
    : Permutation (last_first A l) l :=
  Permutation_sym (Permutation_rev l).

Definition os_with (c : Client.t) : platform :=
  mk_platform strptime home read_adc (fun _ _ => Return c)
    last_first last_first_perm read_only (fun _ => false).

Definition os : platform := os_with client.

Definition os_without_credentials : platform :=
  mk_platform strptime home no_adc (fun _ _ => Return client)
    last_first last_first_perm read_only (fun _ => false).

Definition args : arguments :=
  mk_arguments "demo-project" "2024-01-01" "unmodified_buckets.xlsx" 10.

Definition shell : process :=
  {| environ := {["HOME" := "/home/op"]}; files := ∅; log := [] |}.

End Sample.

(** ** Further vocabulary: column texts, more runs of the sample *)



(** The record of a report that could not be written. *)
Definition write_error (e : exn) : level * string :=
  (ERROR, "Error writing to Excel: " +:+ str_exn e).

Definition written_record (filename : string) : level * string :=
  (INFO, "Results written to " +:+ filename).

Definition invalid_date_record : level * string :=
  (ERROR, "Invalid date format. Please use YYYY-MM-DD.").


(** A text of a Scan Result is refused by the cells. *)
Definition refused (b : ScanResult.t) : Prop :=
  (exists e, check_string (ScanResult.name b) = Raise e)
  \/ (exists s e, ScanResult.location b = Some s
                  /\ check_string s = Raise e)
  \/ (exists s e, ScanResult.storage_class b = Some s
                  /\ check_string s = Raise e).

(** The writer fails with [e]: a cell write raises it, or the save does. *)
Definition write_fails (os : platform) (buckets : list ScanResult.t)
    (filename : string) (e : exn) : Prop :=
  build_workbook buckets = Raise e
  \/ exists wb, build_workbook buckets = Return wb
                /\ save_error os filename = Some e.

(** The writer got as far as opening the target path. *)
Definition target_opened (os : platform) (buckets : list ScanResult.t)
    (filename : string) : bool :=
  match build_workbook buckets with
  | Return _ => opened_before_error os filename
  | Raise _ => false
  end.



Module More.

(** A pool whose futures complete in the order of submission. *)
Definition in_order (A : Type) (l : list A) : list A := l.

Definition in_order_perm (A : Type) (l : list A)
    : Permutation (in_order A l) l :=
  Permutation_refl l.

Definition os_in_order : platform :=
  mk_platform Sample.strptime Sample.home Sample.read_adc
    (fun _ _ => Return Sample.client) in_order in_order_perm
    Sample.read_only (fun _ => false).

Definition args_read_only : arguments :=
  mk_arguments "demo-project" "2024-01-01" "/proc/report.xlsx" 10.

Definition args_bad_date : arguments :=
  mk_arguments "demo-project" "01/01/2024" "unmodified_buckets.xlsx" 10.

Definition args_no_workers : arguments :=
  mk_arguments "demo-project" "2024-01-01" "unmodified_buckets.xlsx" 0.

(** A later cutoff. *)
Definition cutoff_2025 : naive_datetime := mk_naive 2025 1 1 0 0 0 0.

(** A credential file that is there and cannot be parsed. *)
Definition malformed_adc (path : string) : outcome credentials :=
  Raise (mk_exn ValueError
           "Authorized user info was not in the expected format, missing fields refresh_token.").

Definition os_malformed_credentials : platform :=
  mk_platform Sample.strptime Sample.home malformed_adc
    (fun _ _ => Return Sample.client) Sample.last_first
    Sample.last_first_perm Sample.read_only (fun _ => false).

(** A process that already has a report and another file. *)
Definition shell_with_files : process :=
  {| environ := {["HOME" := "/home/op"]};
     files := {["unmodified_buckets.xlsx" := Workbook Workbook_active;
               "notes.xlsx" := Workbook (set_title Workbook_active "Notes")]};
     log := [] |}.

Definition results : list ScanResult.t :=
  [result_for "boundary" Sample.boundary;
   result_for "archive" Sample.archive].


(** A Scan Result whose name holds the control character of code 1. *)
Definition unprintable : ScanResult.t :=
  {| ScanResult.name := String "001"%char "bucket";
     ScanResult.created := Sample.utc 2020 5 17 10 30 0;
     ScanResult.last_modified := Sample.utc 2020 5 17 10 30 0;
     ScanResult.location := Some "US";
     ScanResult.storage_class := Some "STANDARD" |}.

(** A file system that is full: the report is opened and cannot be
    written to its end. *)
Definition disk_full (filename : string) : option exn :=
  Some (mk_exn (OtherException "OSError")
          "[Errno 28] No space left on device").

Definition os_disk_full : platform :=
  mk_platform Sample.strptime Sample.home Sample.read_adc
    (fun _ _ => Return Sample.client) Sample.last_first
    Sample.last_first_perm disk_full (fun _ => true).

End More.

(** Unfolds the monad and the primitive actions. *)
Ltac run :=
  unfold get_bucket, replace_of, logging_error, logging_info, logging,
    environ_set, get_environ, try_except_Exception, try_except, bind, ret,
    raise, lift in *; simpl in *.

#[local] Arguments isinstance : simpl never.
#[local] Arguments get_storage_client : simpl never.
#[local] Arguments get_unmodified_buckets : simpl never.
#[local] Arguments write_to_excel : simpl never.
#[local] Arguments check_bucket_modification : simpl never.

(** * Properties *)

(** ** Comparison of date-times *)

Lemma lex_compare_refl (l : list Z) : lex_compare l l = Eq.
Proof.
  induction l as [|x l IH]; simpl; [reflexivity|].
  now rewrite Z.compare_refl.
Qed.

Lemma naive_cmp_refl (a : naive_datetime) : naive_cmp a a = Eq.
Proof. apply lex_compare_refl. Qed.

Lemma naive_le_not_gt (a b : naive_datetime) :
  naive_le a b = negb (naive_gt a b).
Proof. unfold naive_le, naive_gt. now destruct (naive_cmp a b). Qed.

Lemma naive_gt_irrefl (a : naive_datetime) : naive_gt a a = false.
Proof. unfold naive_gt. now rewrite naive_cmp_refl. Qed.

Lemma at_or_before_iff (cutoff : naive_datetime) (t : datetime) :
  at_or_before cutoff t <-> naive_gt (replace_tzinfo_None t) cutoff = false.
Proof.
  unfold at_or_before. rewrite naive_le_not_gt.
  destruct (naive_gt _ _); simpl; split; congruence.
Qed.

(** ** The scan of one bucket *)

(** The loop reads no state and leaves the state as it is. *)
Lemma for_blob_in_state (blobs : blob_iterator) (cutoff : naive_datetime)
    (p : process) :
  for_blob_in blobs cutoff p
  = (fst (for_blob_in blobs cutoff initial_process), p).
Proof.
  induction blobs as [|b rest IH|e]; simpl; try reflexivity.
  run. destruct (Blob.updated b) as [t|]; simpl; [|reflexivity].
  destruct (naive_gt _ _); [reflexivity|apply IH].
Qed.

(** The loop never returns a result from inside: it returns [None] early,
    runs to its end, or raises. *)
Lemma for_blob_in_outcome (blobs : blob_iterator) (cutoff : naive_datetime)
    (p : process) (r : ScanResult.t) :
  fst (for_blob_in blobs cutoff p) <> Return (Some (Some r)).
Proof.
  induction blobs as [|b rest IH|e]; simpl; try discriminate.
  run. destruct (Blob.updated b) as [t|]; simpl; [|discriminate].
  destruct (naive_gt _ _); [discriminate|apply IH].
Qed.

(** The loop runs to its end exactly when the listing completes and every
    object it yields has a time at or before the cutoff. *)
Lemma for_blob_in_end (blobs : blob_iterator) (cutoff : naive_datetime)
    (p : process) :
  fst (for_blob_in blobs cutoff p) = Return None
  <-> completes blobs = true
      /\ Forall (object_unmodified cutoff) (yielded blobs).
Proof.
  induction blobs as [|b rest IH|e]; simpl.
  - split; [intros _; split; [reflexivity|constructor]|reflexivity].
  - run. destruct (Blob.updated b) as [t|] eqn:Hu; simpl.
    + destruct (naive_gt (replace_tzinfo_None t) cutoff) eqn:Hgt; simpl.
      * split; [discriminate|].
        intros [_ HF]. inversion HF as [|? ? [t' [Ht' Hle]] _]; subst.
        rewrite Hu in Ht'. inversion Ht'; subst t'.
        apply at_or_before_iff in Hle. congruence.
      * rewrite IH. split; intros [Hc HF]; split; try assumption.
        -- constructor; [|assumption].
           exists t. split; [assumption|now apply at_or_before_iff].
        -- now inversion HF.
    + split; [discriminate|].
      intros [_ HF]. inversion HF as [|? ? [t' [Ht' _]] _]; subst.
      congruence.
  - split; [discriminate|intros [H _]; discriminate].
Qed.

(** In any state the scan returns; it returns what [scanned] says and adds
    the records of [scan_log] to the log, nothing else. *)
Lemma check_bucket_modification_run (client : Client.t)
    (bucket_name : string) (cutoff : naive_datetime) (p : process) :
  check_bucket_modification client bucket_name cutoff p
  = (Return (scanned client bucket_name cutoff),
     add_log p (scan_log client bucket_name cutoff)).
Proof.
  assert (Hid : forall q, add_log q [] = q).
  { intros [e f l]. unfold add_log. simpl. now rewrite app_nil_r. }
  unfold scanned, value_of, scan_log, log_of, check_bucket_modification. run.
  destruct (Client.bucket_resource client bucket_name) as [props|e]; simpl;
    [|reflexivity].
  destruct (naive_gt _ cutoff); simpl; [now rewrite Hid|].
  destruct (updated_after _ cutoff); simpl; [now rewrite Hid|].
  rewrite (for_blob_in_state _ _ p).
  pose proof (for_blob_in_state (Client.list_blobs client bucket_name) cutoff
                initial_process) as Hq.
  destruct (for_blob_in (Client.list_blobs client bucket_name) cutoff
              initial_process) as [[[v|]|e] q]; simpl in *;
    inversion Hq; subst q; simpl; now rewrite ?Hid.
Qed.

Lemma updated_after_false (u : option datetime) (cutoff : naive_datetime) :
  updated_after u cutoff = false
  <-> forall t, u = Some t -> at_or_before cutoff t.
Proof.
  destruct u as [t|]; simpl.
  - rewrite <- at_or_before_iff. split.
    + intros H t' Ht'. now inversion Ht'; subst.
    + intros H. now apply H.
  - split; [intros _ t Ht; discriminate|reflexivity].
Qed.

(** A bucket gets a Scan Result exactly when its metadata can be fetched,
    its objects can be listed to the end, and the three recency checks
    pass; the result is the one the specification describes. *)
Lemma scanned_Some_iff (client : Client.t) (bucket_name : string)
    (cutoff : naive_datetime) (r : ScanResult.t) :
  scanned client bucket_name cutoff = Some r
  <-> exists b,
        Client.bucket_resource client bucket_name = Return b
        /\ completes (Client.list_blobs client bucket_name) = true
        /\ passes_recency_checks cutoff b
             (yielded (Client.list_blobs client bucket_name))
        /\ r = result_for bucket_name b.
Proof.
  unfold scanned, value_of, check_bucket_modification, passes_recency_checks.
  run.
  destruct (Client.bucket_resource client bucket_name) as [b|e]; simpl.
  2:{ split; [discriminate|]. intros [b [H _]]. discriminate. }
  unfold Bucket.time_created, Bucket.updated. simpl.
  destruct (naive_gt (replace_tzinfo_None (Bucket.p_time_created b)) cutoff)
    eqn:Hc; simpl.
  { split; [discriminate|]. intros [b' [Hb [_ [[H _] _]]]].
    inversion Hb; subst b'. apply at_or_before_iff in H. congruence. }
  destruct (updated_after (Bucket.p_updated b) cutoff) eqn:Hu; simpl.
  { split; [discriminate|]. intros [b' [Hb [_ [[_ [H _]] _]]]].
    inversion Hb; subst b'. apply updated_after_false in H. congruence. }
  pose proof (for_blob_in_end (Client.list_blobs client bucket_name) cutoff
                initial_process) as Hend.
  pose proof (for_blob_in_outcome (Client.list_blobs client bucket_name)
                cutoff initial_process) as Hout.
  destruct (for_blob_in (Client.list_blobs client bucket_name) cutoff
              initial_process) as [[[[v|]|]|e] q]; simpl in *.
  - now destruct (Hout v).
  - split; [discriminate|]. intros [b' [_ [Hcomp [[_ [_ HF]] _]]]].
    destruct Hend as [_ Hend]. now specialize (Hend (conj Hcomp HF)).
  - destruct Hend as [Hend _]. destruct (Hend eq_refl) as [Hcomp HF].
    split.
    + intros H. inversion H; subst r. exists b.
      split; [reflexivity|]. split; [assumption|].
      split; [|reflexivity].
      split; [now apply at_or_before_iff|].
      split; [now apply updated_after_false|assumption].
    + intros [b' [Hb [_ [_ Hr]]]]. inversion Hb; subst b'. now subst r.
  - split; [discriminate|]. intros [b' [_ [Hcomp [[_ [_ HF]] _]]]].
    destruct Hend as [_ Hend]. now specialize (Hend (conj Hcomp HF)).
Qed.

(** A failed metadata fetch: no result, one diagnostic. *)
Lemma scan_fetch_fails (client : Client.t) (bucket_name : string)
    (cutoff : naive_datetime) (e : exn) :
  Client.bucket_resource client bucket_name = Raise e ->
  scanned client bucket_name cutoff = None
  /\ scan_log client bucket_name cutoff = [scan_error bucket_name e].
Proof.
  intros H. unfold scanned, value_of, scan_log, log_of, check_bucket_modification.
  run. rewrite H. simpl. split; reflexivity.
Qed.

(** The loop passes over objects that are at or before the cutoff. *)
Lemma for_blob_in_app (pre : list Blob.t) (tail : blob_iterator)
    (cutoff : naive_datetime) (p : process) :
  Forall (object_unmodified cutoff) pre ->
  for_blob_in (iter_app pre tail) cutoff p = for_blob_in tail cutoff p.
Proof.
  induction 1 as [|b pre [t [Ht Hle]] _ IH]; simpl; [reflexivity|].
  run. rewrite Ht. simpl. apply at_or_before_iff in Hle. now rewrite Hle.
Qed.

(** What the scan does when it gets as far as the step [tail] of the
    listing and that step raises [e]. *)
Lemma scan_loop_raises (client : Client.t) (bucket_name : string)
    (cutoff : naive_datetime) (b : Bucket.properties) (pre : list Blob.t)
    (tail : blob_iterator) (e : exn) :
  Client.bucket_resource client bucket_name = Return b ->
  at_or_before cutoff (Bucket.p_time_created b) ->
  (forall u, Bucket.p_updated b = Some u -> at_or_before cutoff u) ->
  Client.list_blobs client bucket_name = iter_app pre tail ->
  Forall (object_unmodified cutoff) pre ->
  fst (for_blob_in tail cutoff initial_process) = Raise e ->
  scanned client bucket_name cutoff = None
  /\ scan_log client bucket_name cutoff = [scan_error bucket_name e].
Proof.
  intros Hb Hc Hu Hl Hpre Htail.
  unfold scanned, value_of, scan_log, log_of, check_bucket_modification.
  run. rewrite Hb. simpl. unfold Bucket.time_created, Bucket.updated. simpl.
  apply at_or_before_iff in Hc. rewrite Hc.
  apply updated_after_false in Hu. rewrite Hu.
  rewrite Hl, (for_blob_in_app _ _ _ _ Hpre).
  pose proof (for_blob_in_state tail cutoff initial_process) as Hq.
  destruct (for_blob_in tail cutoff initial_process) as [o q]; simpl in *.
  inversion Hq; subst q. subst o. simpl. split; reflexivity.
Qed.

(** ** The coordinator *)

Lemma add_log_nil (p : process) : add_log p [] = p.
Proof. destruct p. unfold add_log. simpl. now rewrite app_nil_r. Qed.

Lemma add_log_app (p : process) (l1 l2 : list (level * string)) :
  add_log (add_log p l1) l2 = add_log p (l1 ++ l2).
Proof. unfold add_log. simpl. now rewrite app_assoc. Qed.

Lemma check_returns_and_logs (client : Client.t) (bucket_name : string)
    (cutoff : naive_datetime) :
  returns_and_logs (check_bucket_modification client bucket_name cutoff).
Proof. intros p. apply check_bucket_modification_run. Qed.

(** Every future of such tasks holds a value, and the pool only adds the
    records of its tasks to the log. *)
Lemma run_tasks_values {A} (tasks : list (py (option A))) :
  Forall returns_and_logs tasks ->
  forall p,
    run_tasks tasks p
    = (Return (map (fun t => Return (value_of t)) tasks),
       add_log p (concat (map log_of tasks))).
Proof.
  induction 1 as [|t tasks Ht _ IH]; intros p; simpl.
  - now rewrite add_log_nil.
  - rewrite Ht. run. rewrite IH. now rewrite add_log_app.
Qed.

Lemma collect_results_values (vs : list (option ScanResult.t))
    (acc : list ScanResult.t) :
  collect_results (map Return vs) acc = (acc ++ omap id vs, None).
Proof.
  revert acc. induction vs as [|[r|] vs IH]; intros acc; simpl.
  - now rewrite app_nil_r.
  - rewrite IH. now rewrite <- app_assoc.
  - apply IH.
Qed.

Lemma omap_id_fmap {A B} (f : A -> option B) (l : list A) :
  omap id (map f l) = omap f l.
Proof.
  induction l as [|x l IH]; [reflexivity|].
  csimpl. destruct (f x); csimpl; now rewrite IH.
Qed.

(** The coordinator returns in every state and only adds to the log.  When
    the listing fails, or the pool cannot be made, the result is empty and
    the failure is logged; otherwise the result holds, in some order, the
    Scan Results of the listed buckets, and the log gets the records of
    their scans. *)
Lemma get_unmodified_buckets_run (os : platform) (client : Client.t)
    (cutoff : naive_datetime) (max_workers : Z) (p : process) :
  exists results records,
    get_unmodified_buckets os client cutoff max_workers p
    = (Return results, add_log p records)
    /\ match Client.list_buckets client with
       | Raise e => results = [] /\ records = [listing_error e]
       | Return buckets =>
           if (max_workers <=? 0)%Z
           then results = [] /\ exists e, records = [listing_error e]
           else Permutation results
                  (omap (fun b => scanned client (Bucket.name b) cutoff)
                     buckets)
                /\ forall x, In x records <->
                     exists b, In b buckets
                       /\ In x (scan_log client (Bucket.name b) cutoff)
       end.
Proof.
  unfold get_unmodified_buckets, ThreadPoolExecutor, submit_and_complete.
  destruct (Client.list_buckets client) as [buckets|e]; run.
  2:{ exists [], [listing_error e]. split; [reflexivity|now split]. }
  destruct (max_workers <=? 0)%Z; simpl.
  { exists [],
      [listing_error (mk_exn ValueError "max_workers must be greater than 0")].
    split; [reflexivity|]. split; [reflexivity|]. eexists. reflexivity. }
  set (tasks := map _ buckets).
  pose proof (as_completed_perm os _ tasks) as Hperm.
  assert (Hall : Forall returns_and_logs (as_completed os _ tasks)).
  { apply Forall_forall. intros t Ht. apply list_elem_of_In in Ht.
    apply (Permutation_in _ Hperm) in Ht. apply in_map_iff in Ht.
    destruct Ht as [b [<- _]]. apply check_returns_and_logs. }
  rewrite (run_tasks_values _ Hall). simpl.
  rewrite <- (map_map value_of Return), collect_results_values. simpl.
  eexists _, _. split; [reflexivity|]. split.
  - rewrite omap_id_fmap.
    rewrite Hperm. subst tasks.
    rewrite <- omap_id_fmap, map_map, omap_id_fmap. reflexivity.
  - intros x. rewrite in_concat. split.
    + intros [l [Hl Hx]]. apply in_map_iff in Hl. destruct Hl as [t [<- Ht]].
      apply (Permutation_in _ Hperm) in Ht. apply in_map_iff in Ht.
      destruct Ht as [b [<- Hb]]. exists b. now split.
    + intros [b [Hb Hx]]. eexists. split; [|exact Hx].
      apply in_map_iff. eexists. split; [reflexivity|].
      apply (Permutation_in _ (Permutation_sym Hperm)).
      apply in_map_iff. exists b. now split.
Qed.

(** A listed bucket appears in the result exactly when its own scan gives
    a result. *)
Lemma appears_iff_scanned (client : Client.t) (cutoff : naive_datetime)
    (buckets : list Bucket.t) (results : list ScanResult.t) (B : Bucket.t) :
  Permutation results
    (omap (fun b => scanned client (Bucket.name b) cutoff) buckets) ->
  In B buckets ->
  appears (Bucket.name B) results
  <-> exists r, scanned client (Bucket.name B) cutoff = Some r.
Proof.
  intros Hperm HB. unfold appears. split.
  - intros [r [Hr Hname]].
    apply (Permutation_in _ Hperm), list_elem_of_In, list_elem_of_omap in Hr.
    destruct Hr as [B' [_ Hs]]. exists r.
    pose proof Hs as Hs'. apply scanned_Some_iff in Hs'.
    destruct Hs' as [b [_ [_ [_ ->]]]]. simpl in Hname. now rewrite <- Hname.
  - intros [r Hs]. exists r. split.
    + apply (Permutation_in _ (Permutation_sym Hperm)), list_elem_of_In,
        list_elem_of_omap.
      exists B. split; [now apply list_elem_of_In|assumption].
    + apply scanned_Some_iff in Hs. now destruct Hs as [b [_ [_ [_ ->]]]].
Qed.

Lemma scan_of_listed (os : platform) (client : Client.t)
    (cutoff : naive_datetime) (max_workers : Z) (p : process)
    (buckets : list Bucket.t) :
  Client.list_buckets client = Return buckets ->
  (0 < max_workers)%Z ->
  exists results records,
    get_unmodified_buckets os client cutoff max_workers p
    = (Return results, add_log p records)
    /\ Permutation results
         (omap (fun b => scanned client (Bucket.name b) cutoff) buckets)
    /\ forall x, In x records <->
         exists b, In b buckets
           /\ In x (scan_log client (Bucket.name b) cutoff).
Proof.
  intros Hl Hw.
  destruct (get_unmodified_buckets_run os client cutoff max_workers p)
    as [results [records [Hrun H]]].
  rewrite Hl in H. destruct (Z.leb_spec max_workers 0) as [Hle|_]; [lia|].
  exists results, records. now split.
Qed.

(** C1, amended.  When the listing succeeds and the pool has at least
    one worker, the coordinator returns, and a listed bucket appears in
    the result set if and only if its metadata can be fetched, its objects
    can be listed to the end without an error, its creation time is at or
    before the cutoff, its metadata-update time is absent or at or before
    the cutoff, and every object has a last-modified time at or before the
    cutoff. *)
Theorem C1_membership (os : platform) (client : Client.t)
    (cutoff : naive_datetime) (max_workers : Z) (p : process)
    (buckets : list Bucket.t) :
  Client.list_buckets client = Return buckets ->
  (0 < max_workers)%Z ->
  exists results,
    scan_returns os client cutoff max_workers p results
    /\ forall B, In B buckets ->
         (appears (Bucket.name B) results
          <-> exists b,
                Client.bucket_resource client (Bucket.name B) = Return b
                /\ completes (Client.list_blobs client (Bucket.name B)) = true
                /\ passes_recency_checks cutoff b
                     (yielded (Client.list_blobs client (Bucket.name B)))).
Proof.
  intros Hl Hw.
  destruct (scan_of_listed os client cutoff max_workers p buckets Hl Hw)
    as [results [records [Hrun [Hperm _]]]].
  exists results. split; [eexists; exact Hrun|].
  intros B HB. rewrite (appears_iff_scanned _ _ _ _ _ Hperm HB). split.
  - intros [r Hs]. apply scanned_Some_iff in Hs.
    destruct Hs as [b [Hb [Hc [Hp _]]]]. exists b. auto.
  - intros [b [Hb [Hc Hp]]]. exists (result_for (Bucket.name B) b).
    apply scanned_Some_iff. exists b. auto.
Qed.

Lemma C1_membership_witness :
  Client.list_buckets Sample.client = Return Sample.listing
  /\ (0 < 10)%Z
  /\ exists results,
    scan_returns Sample.os Sample.client Sample.cutoff 10 Sample.shell results
    /\ forall B, In B Sample.listing ->
         (appears (Bucket.name B) results
          <-> exists b,
                Client.bucket_resource Sample.client (Bucket.name B) = Return b
                /\ completes (Client.list_blobs Sample.client (Bucket.name B))
                   = true
                /\ passes_recency_checks Sample.cutoff b
                     (yielded (Client.list_blobs Sample.client
                                 (Bucket.name B)))).
Proof.
  split; [reflexivity|]. split; [lia|].
  apply (C1_membership Sample.os Sample.client Sample.cutoff 10 Sample.shell
           Sample.listing); [reflexivity|lia].
Defined.

(** The bucket [locked] of the sample project is listed, was created
    before the cutoff, has no metadata update and no object, and is not in
    the result set: its metadata cannot be fetched. *)
Lemma C1_locked_bucket_left_out :
  let B := Bucket.mk "locked" Sample.plain in
  let results := [result_for "boundary" Sample.boundary;
                  result_for "archive" Sample.archive] in
  In B Sample.listing
  /\ scan_returns Sample.os Sample.client Sample.cutoff 10 Sample.shell results
  /\ ~ membership_by_recency_alone Sample.client Sample.cutoff results B.
Proof.
  simpl. split; [auto 10|]. split.
  - eexists. vm_compute. reflexivity.
  - unfold membership_by_recency_alone. intros [_ H].
    destruct H as [r [Hr Hname]].
    + split; [reflexivity|]. split; [discriminate|constructor].
    + simpl in Hr. destruct Hr as [<-|[<-|[]]]; discriminate.
Qed.

(** C2.  A listed bucket whose timezone-stripped creation time equals the
    cutoff, whose metadata update is absent or at or before the cutoff and
    whose objects, listed to the end, all have a time at or before the
    cutoff, is not excluded by the creation check, which excludes on
    "strictly after" only; its scan gives a result and the result is in
    the result set. *)
Theorem C2_boundary_inclusive (os : platform) (client : Client.t)
    (cutoff : naive_datetime) (max_workers : Z) (p : process)
    (buckets : list Bucket.t) (B : Bucket.t) (b : Bucket.properties) :
  Client.list_buckets client = Return buckets ->
  (0 < max_workers)%Z ->
  In B buckets ->
  Client.bucket_resource client (Bucket.name B) = Return b ->
  replace_tzinfo_None (Bucket.p_time_created b) = cutoff ->
  (forall u, Bucket.p_updated b = Some u -> at_or_before cutoff u) ->
  completes (Client.list_blobs client (Bucket.name B)) = true ->
  Forall (object_unmodified cutoff)
    (yielded (Client.list_blobs client (Bucket.name B))) ->
  naive_gt (replace_tzinfo_None (Bucket.p_time_created b)) cutoff = false
  /\ scanned client (Bucket.name B) cutoff
     = Some (result_for (Bucket.name B) b)
  /\ exists results,
       scan_returns os client cutoff max_workers p results
       /\ In (result_for (Bucket.name B) b) results
       /\ appears (Bucket.name B) results.
Proof.
  intros Hl Hw HB Hb Heq Hu Hc Ho.
  assert (Hgt : naive_gt (replace_tzinfo_None (Bucket.p_time_created b))
                  cutoff = false).
  { rewrite Heq. apply naive_gt_irrefl. }
  assert (Hs : scanned client (Bucket.name B) cutoff
               = Some (result_for (Bucket.name B) b)).
  { apply scanned_Some_iff. exists b. repeat split; try assumption.
    now apply at_or_before_iff. }
  split; [assumption|]. split; [assumption|].
  destruct (scan_of_listed os client cutoff max_workers p buckets Hl Hw)
    as [results [records [Hrun [Hperm _]]]].
  exists results. split; [eexists; exact Hrun|].
  assert (Hin : In (result_for (Bucket.name B) b) results).
  { apply (Permutation_in _ (Permutation_sym Hperm)), list_elem_of_In,
      list_elem_of_omap.
    exists B. split; [now apply list_elem_of_In|assumption]. }
  split; [assumption|]. eexists. split; [exact Hin|reflexivity].
Qed.

Lemma C2_boundary_inclusive_witness :
  replace_tzinfo_None (Bucket.p_time_created Sample.boundary) = Sample.cutoff
  /\ naive_gt (replace_tzinfo_None (Bucket.p_time_created Sample.boundary))
       Sample.cutoff = false
  /\ scanned Sample.client "boundary" Sample.cutoff
     = Some (result_for "boundary" Sample.boundary)
  /\ exists results,
       scan_returns Sample.os Sample.client Sample.cutoff 10 Sample.shell
         results
       /\ In (result_for "boundary" Sample.boundary) results
       /\ appears "boundary" results.
Proof.
  split; [reflexivity|].
  apply (C2_boundary_inclusive Sample.os Sample.client Sample.cutoff 10
           Sample.shell Sample.listing
           (Bucket.mk "boundary" Sample.boundary) Sample.boundary).
  - reflexivity.
  - lia.
  - simpl. auto.
  - reflexivity.
  - reflexivity.
  - intros u Hu. discriminate Hu.
  - reflexivity.
  - simpl. constructor.
Defined.

(** C5.  Every Scan Result in the result set belongs to a bucket whose
    metadata was fetched, and its last-modified field is the bucket's
    metadata-update time when there is one and the bucket's creation time
    otherwise. *)
Theorem C5_last_modified (os : platform) (client : Client.t)
    (cutoff : naive_datetime) (max_workers : Z) (p : process)
    (results : list ScanResult.t) (r : ScanResult.t) :
  scan_returns os client cutoff max_workers p results ->
  In r results ->
  exists b,
    Client.bucket_resource client (ScanResult.name r) = Return b
    /\ scanned client (ScanResult.name r) cutoff = Some r
    /\ ScanResult.last_modified r
       = match Bucket.p_updated b with
         | Some u => u
         | None => Bucket.p_time_created b
         end.
Proof.
  intros [p' Hret] Hr.
  destruct (get_unmodified_buckets_run os client cutoff max_workers p)
    as [results' [records [Hrun H]]].
  rewrite Hret in Hrun. inversion Hrun; subst results'. clear Hrun.
  destruct (Client.list_buckets client) as [buckets|e].
  2:{ destruct H as [-> _]. destruct Hr. }
  destruct (max_workers <=? 0)%Z.
  { destruct H as [-> _]. destruct Hr. }
  destruct H as [Hperm _].
  apply (Permutation_in _ Hperm), list_elem_of_In, list_elem_of_omap in Hr.
  destruct Hr as [B [_ Hs]].
  pose proof Hs as Hs'. apply scanned_Some_iff in Hs'.
  destruct Hs' as [b [Hb [_ [_ Hres]]]].
  exists b. subst r. simpl. auto.
Qed.

Lemma C5_last_modified_witness :
  let results := [result_for "boundary" Sample.boundary;
                  result_for "archive" Sample.archive] in
  let r := result_for "archive" Sample.archive in
  scan_returns Sample.os Sample.client Sample.cutoff 10 Sample.shell results
  /\ In r results
  /\ exists b,
       Client.bucket_resource Sample.client (ScanResult.name r) = Return b
       /\ scanned Sample.client (ScanResult.name r) Sample.cutoff = Some r
       /\ ScanResult.last_modified r
          = match Bucket.p_updated b with
            | Some u => u
            | None => Bucket.p_time_created b
            end.
Proof.
  assert (H : scan_returns Sample.os Sample.client Sample.cutoff 10
                Sample.shell
                [result_for "boundary" Sample.boundary;
                 result_for "archive" Sample.archive]).
  { eexists. vm_compute. reflexivity. }
  split; [exact H|]. split; [simpl; auto|].
  apply (C5_last_modified Sample.os Sample.client Sample.cutoff 10
           Sample.shell _ _ H).
  simpl. auto.
Defined.

(** The scan of a bucket reads the answers for that bucket only. *)
Lemma scanned_local (client client' : Client.t) (bucket_name : string)
    (cutoff : naive_datetime) :
  Client.bucket_resource client' bucket_name
  = Client.bucket_resource client bucket_name ->
  Client.list_blobs client' bucket_name
  = Client.list_blobs client bucket_name ->
  scanned client' bucket_name cutoff = scanned client bucket_name cutoff
  /\ scan_log client' bucket_name cutoff = scan_log client bucket_name cutoff.
Proof.
  intros Hb Hl.
  unfold scanned, value_of, scan_log, log_of, check_bucket_modification.
  run. rewrite Hb, Hl. split; reflexivity.
Qed.

(** C4.  The scan of one bucket returns in every state, whatever the
    service answers, and changes nothing but the log.  An exception raised
    by the metadata fetch, or by the object listing once the scan has got
    to it, becomes no result and one logged diagnostic.  The result set of
    the coordinator holds exactly the results of the scans of the listed
    buckets, each of which depends on the answers for its own bucket only,
    and the log has the diagnostic of every bucket that could not be
    fetched. *)
Theorem C4_failure_isolation (os : platform) (client : Client.t)
    (cutoff : naive_datetime) (max_workers : Z) (p : process)
    (buckets : list Bucket.t) :
  Client.list_buckets client = Return buckets ->
  (0 < max_workers)%Z ->
  (forall bucket_name q,
     check_bucket_modification client bucket_name cutoff q
     = (Return (scanned client bucket_name cutoff),
        add_log q (scan_log client bucket_name cutoff)))
  /\ (forall bucket_name e,
        Client.bucket_resource client bucket_name = Raise e ->
        scanned client bucket_name cutoff = None
        /\ scan_log client bucket_name cutoff = [scan_error bucket_name e])
  /\ (forall bucket_name b pre e,
        Client.bucket_resource client bucket_name = Return b ->
        at_or_before cutoff (Bucket.p_time_created b) ->
        (forall u, Bucket.p_updated b = Some u -> at_or_before cutoff u) ->
        Client.list_blobs client bucket_name = iter_app pre (IterRaise e) ->
        Forall (object_unmodified cutoff) pre ->
        scanned client bucket_name cutoff = None
        /\ scan_log client bucket_name cutoff = [scan_error bucket_name e])
  /\ (exists results records,
        get_unmodified_buckets os client cutoff max_workers p
        = (Return results, add_log p records)
        /\ Permutation results
             (omap (fun B => scanned client (Bucket.name B) cutoff) buckets)
        /\ forall B e,
             In B buckets ->
             Client.bucket_resource client (Bucket.name B) = Raise e ->
             In (scan_error (Bucket.name B) e) records)
  /\ (forall client' bucket_name,
        Client.bucket_resource client' bucket_name
        = Client.bucket_resource client bucket_name ->
        Client.list_blobs client' bucket_name
        = Client.list_blobs client bucket_name ->
        scanned client' bucket_name cutoff
        = scanned client bucket_name cutoff).
Proof.
  intros Hl Hw.
  split; [intros; apply check_bucket_modification_run|].
  split; [intros; now apply scan_fetch_fails|].
  split.
  { intros bucket_name b pre e Hb Hc Hu Hblobs Hpre.
    now apply (scan_loop_raises client bucket_name cutoff b pre
                 (IterRaise e) e). }
  split.
  - destruct (scan_of_listed os client cutoff max_workers p buckets Hl Hw)
      as [results [records [Hrun [Hperm Hrec]]]].
    exists results, records. split; [assumption|]. split; [assumption|].
    intros B e HB He. apply Hrec. exists B. split; [assumption|].
    destruct (scan_fetch_fails client (Bucket.name B) cutoff e He) as [_ ->].
    simpl. auto.
  - intros client' bucket_name Hb Hblobs.
    now apply scanned_local.
Qed.

Lemma C4_failure_isolation_witness :
  Client.list_buckets Sample.client = Return Sample.listing
  /\ (0 < 10)%Z
  /\ check_bucket_modification Sample.client "locked" Sample.cutoff
       Sample.shell
     = (Return None,
        add_log Sample.shell [scan_error "locked" Sample.forbidden])
  /\ scan_log Sample.client "flaky" Sample.cutoff
     = [scan_error "flaky" Sample.unavailable]
  /\ exists results records,
       get_unmodified_buckets Sample.os Sample.client Sample.cutoff 10
         Sample.shell
       = (Return results, add_log Sample.shell records)
       /\ Permutation results
            [result_for "archive" Sample.archive;
             result_for "boundary" Sample.boundary]
       /\ In (scan_error "locked" Sample.forbidden) records.
Proof.
  assert (Hl : Client.list_buckets Sample.client = Return Sample.listing)
    by reflexivity.
  assert (Hw : (0 < 10)%Z) by lia.
  destruct (C4_failure_isolation Sample.os Sample.client Sample.cutoff 10
              Sample.shell Sample.listing Hl Hw)
    as [Hrun [Hfetch [Hloop [Hscan _]]]].
  split; [exact Hl|]. split; [exact Hw|]. split; [|split].
  - rewrite Hrun.
    destruct (Hfetch "locked" Sample.forbidden eq_refl) as [-> ->].
    reflexivity.
  - apply (Hloop "flaky" Sample.plain [Sample.old_object] Sample.unavailable).
    + reflexivity.
    + reflexivity.
    + intros u Hu. discriminate Hu.
    + reflexivity.
    + constructor; [|constructor]. eexists. split; reflexivity.
  - destruct Hscan as [results [records [Hrun' [Hperm Hrec]]]].
    exists results, records. split; [exact Hrun'|]. split; [exact Hperm|].
    apply (Hrec (Bucket.mk "locked" Sample.plain) Sample.forbidden).
    + simpl. auto 10.
    + reflexivity.
Defined.

(** C9, amended.  A bucket that holds an object without a last-modified
    time gets no result, and its scan returns all the same.  When the scan
    gets to that object (the metadata was fetched, the bucket-level checks
    passed and every object listed before it has a time at or before the
    cutoff), the comparison raises [AttributeError], which the scanner
    catches and logs as the failure of that bucket. *)
Theorem C9_undated_object (client : Client.t) (bucket_name : string)
    (cutoff : naive_datetime) (o : Blob.t) :
  In o (yielded (Client.list_blobs client bucket_name)) ->
  Blob.updated o = None ->
  scanned client bucket_name cutoff = None
  /\ (forall q,
        check_bucket_modification client bucket_name cutoff q
        = (Return None, add_log q (scan_log client bucket_name cutoff)))
  /\ (forall b pre rest,
        Client.bucket_resource client bucket_name = Return b ->
        at_or_before cutoff (Bucket.p_time_created b) ->
        (forall u, Bucket.p_updated b = Some u -> at_or_before cutoff u) ->
        Client.list_blobs client bucket_name = iter_app pre (Yield o rest) ->
        Forall (object_unmodified cutoff) pre ->
        scan_log client bucket_name cutoff = [undated_error bucket_name]).
Proof.
  intros Hin Hnone.
  assert (Hs : scanned client bucket_name cutoff = None).
  { destruct (scanned client bucket_name cutoff) as [r|] eqn:Hs;
      [|reflexivity].
    apply scanned_Some_iff in Hs. destruct Hs as [b [_ [_ [[_ [_ HF]] _]]]].
    rewrite Forall_forall in HF. apply list_elem_of_In in Hin.
    destruct (HF o Hin) as [t [Ht _]]. congruence. }
  split; [assumption|]. split.
  - intros q. rewrite check_bucket_modification_run. now rewrite Hs.
  - intros b pre rest Hb Hc Hu Hblobs Hpre.
    apply (scan_loop_raises client bucket_name cutoff b pre (Yield o rest)
             (mk_exn AttributeError
                "'NoneType' object has no attribute 'replace'"));
      try assumption.
    simpl. run. now rewrite Hnone.
Qed.

Lemma C9_undated_object_witness :
  In Sample.undated_object
    (yielded (Client.list_blobs Sample.client "stale-undated"))
  /\ Blob.updated Sample.undated_object = None
  /\ scanned Sample.client "stale-undated" Sample.cutoff = None
  /\ check_bucket_modification Sample.client "stale-undated" Sample.cutoff
       Sample.shell
     = (Return None,
        add_log Sample.shell
          (scan_log Sample.client "stale-undated" Sample.cutoff))
  /\ scan_log Sample.client "stale-undated" Sample.cutoff
     = [undated_error "stale-undated"].
Proof.
  assert (Hin : In Sample.undated_object
                  (yielded (Client.list_blobs Sample.client "stale-undated")))
    by (simpl; auto).
  destruct (C9_undated_object Sample.client "stale-undated" Sample.cutoff
              Sample.undated_object Hin eq_refl) as [Hs [Hrun Hlog]].
  split; [exact Hin|]. split; [reflexivity|]. split; [exact Hs|].
  split; [apply Hrun|].
  apply (Hlog Sample.plain [Sample.old_object] StopIteration).
  - reflexivity.
  - reflexivity.
  - intros u Hu. discriminate Hu.
  - reflexivity.
  - constructor; [|constructor]. eexists. split; reflexivity.
Defined.

(** The bucket [busy-undated] of the sample project holds an object
    modified after the cutoff and then an object without a time: the loop
    returns at the first; no comparison raises and nothing is logged. *)
Lemma C9_excluded_without_a_failure :
  Client.list_blobs Sample.client "busy-undated"
  = Yield Sample.new_object (Yield Sample.undated_object StopIteration)
  /\ check_bucket_modification Sample.client "busy-undated" Sample.cutoff
       Sample.shell
     = (Return None, Sample.shell)
  /\ ~ undated_always_a_failure Sample.client "busy-undated" Sample.cutoff.
Proof.
  split; [reflexivity|]. split; [vm_compute; reflexivity|].
  unfold undated_always_a_failure. intros H.
  destruct H as [_ Hlog].
  - exists Sample.undated_object. split; [simpl; auto|reflexivity].
  - vm_compute in Hlog. exact Hlog.
Qed.

(** ** The credential resolver and the entry point *)

(** The environment is set first; the credential file is then looked up
    in the environment as set; an exception of one of the two named
    classes is logged, and every exception goes on to the caller. *)
Lemma get_storage_client_run (os : platform) (project : string)
    (p : process) :
  get_storage_client os project p
  = let p1 := with_project project p in
    let failure (e : exn) :=
      (Raise e,
       if isinstance e [DefaultCredentialsError; FileNotFoundError]
       then add_log p1 [no_credentials_record] else p1) in
    match from_authorized_user_file os (adc_path os (environ p1)) with
    | Raise e => failure e
    | Return credentials =>
        match storage_Client os project credentials with
        | Raise e => failure e
        | Return client => (Return client, p1)
        end
    end.
Proof.
  unfold get_storage_client, adc_path, with_project, no_credentials_record.
  unfold get_environ, environ_set, logging_error, logging, try_except, bind,
    lift, raise.
  cbn [environ files log].
  destruct (from_authorized_user_file os _) as [credentials|e].
  - destruct (storage_Client os project credentials) as [client|e];
      [reflexivity|].
    now destruct (isinstance e _).
  - now destruct (isinstance e _).
Qed.

Lemma write_to_excel_run (os : platform) (buckets : list ScanResult.t)
    (filename : string) (p : process) :
  write_to_excel os buckets filename p
  = match build_workbook buckets with
    | Raise e =>
        (Return tt,
         add_log p [(ERROR, "Error writing to Excel: " +:+ str_exn e)])
    | Return wb =>
        match save_error os filename with
        | None =>
            (Return tt,
             add_log (with_file filename wb p)
               [(INFO, "Results written to " +:+ filename)])
        | Some e =>
            (Return tt,
             add_log (if opened_before_error os filename
                      then with_partial filename p else p)
               [(ERROR, "Error writing to Excel: " +:+ str_exn e)])
        end
    end.
Proof.
  unfold write_to_excel, wb_save, with_file, with_partial. run.
  destruct (build_workbook buckets) as [wb|e]; simpl; [|reflexivity].
  destruct (save_error os filename); [|reflexivity].
  now destruct (opened_before_error os filename).
Qed.

Lemma main_run (os : platform) (args : arguments) (q : process)
    (cutoff : naive_datetime) :
  strptime_Ymd os (cutoff_date args) = Return cutoff ->
  main os args q
  = match get_storage_client os (project_id args)
            (add_log q [searching_record args]) with
    | (Raise e, p1) => (Return tt, add_log p1 [main_error e])
    | (Return client, p1) =>
        match get_unmodified_buckets os client cutoff (max_workers args) p1
        with
        | (Raise e, p2) => (Return tt, add_log p2 [main_error e])
        | (Return [], p2) => (Return tt, add_log p2 [none_found_record])
        | (Return (r :: rs), p2) =>
            match write_to_excel os (r :: rs) (output args) p2 with
            | (Return _, p3) =>
                (Return tt, add_log p3 [found_record (length (r :: rs))])
            | (Raise e, p3) => (Return tt, add_log p3 [main_error e])
            end
        end
    end.
Proof.
  intros Hparse. unfold main. run. rewrite Hparse. simpl.
  fold (searching_record args).
  destruct (get_storage_client os (project_id args) _) as [[client|e] p1];
    simpl; [|reflexivity].
  destruct (get_unmodified_buckets os client cutoff (max_workers args) p1)
    as [[[|r rs]|e] p2]; simpl; try reflexivity.
  now destruct (write_to_excel os (r :: rs) (output args) p2) as [[[]|e] p3].
Qed.

(** C10.  [get_storage_client] leaves the environment with
    [GOOGLE_CLOUD_PROJECT] set to the project id in every case, also when
    it raises; the credential file is looked up in the environment as
    already set, and what the resolver returns or raises is what the
    credential read and the client constructor return or raise. *)
Theorem C10_environment_set (os : platform) (project : string) (p : process) :
  environ (snd (get_storage_client os project p))
  = <["GOOGLE_CLOUD_PROJECT" := project]> (environ p)
  /\ environ (snd (get_storage_client os project p))
     !! "GOOGLE_CLOUD_PROJECT" = Some project
  /\ fst (get_storage_client os project p)
     = match from_authorized_user_file os
               (adc_path os (<["GOOGLE_CLOUD_PROJECT" := project]> (environ p)))
       with
       | Raise e => Raise e
       | Return credentials => storage_Client os project credentials
       end.
Proof.
  rewrite get_storage_client_run. cbv zeta. cbn [with_project environ].
  assert (He : forall e,
            environ
              (if isinstance e [DefaultCredentialsError; FileNotFoundError]
               then add_log (with_project project p) [no_credentials_record]
               else with_project project p)
            = <["GOOGLE_CLOUD_PROJECT" := project]> (environ p)).
  { intros e. now destruct (isinstance e _). }
  destruct (from_authorized_user_file os _) as [credentials|e]; simpl.
  - destruct (storage_Client os project credentials) as [client|e]; simpl;
      rewrite ?He, ?lookup_insert_eq; auto.
  - rewrite ?He, ?lookup_insert_eq; auto.
Qed.

(** C3, amended.  When the credential file cannot be read, the resolver
    raises that failure to [main] after logging it if it is one of the two
    classes it names; [main] catches it, logs it and returns: the process
    ends normally.  The environment keeps the project id, no file is
    written, and the log has no record of a scan. *)
Theorem C3_credential_failure (os : platform) (args : arguments)
    (q : process) (cutoff : naive_datetime) (e : exn) :
  strptime_Ymd os (cutoff_date args) = Return cutoff ->
  from_authorized_user_file os
    (adc_path os (<["GOOGLE_CLOUD_PROJECT" := project_id args]> (environ q)))
  = Raise e ->
  fst (get_storage_client os (project_id args)
         (add_log q [searching_record args])) = Raise e
  /\ main os args q
     = (Return tt,
        {| environ := <["GOOGLE_CLOUD_PROJECT" := project_id args]> (environ q);
           files := files q;
           log := log q
                  ++ [searching_record args]
                  ++ (if isinstance e
                           [DefaultCredentialsError; FileNotFoundError]
                      then [no_credentials_record] else [])
                  ++ [main_error e] |}).
Proof.
  intros Hparse Hread.
  rewrite (main_run os args q cutoff Hparse).
  rewrite get_storage_client_run. cbv zeta. cbn [with_project add_log environ].
  rewrite Hread. split; [reflexivity|].
  unfold add_log, with_project. simpl.
  destruct (isinstance e _); simpl; rewrite <- ?app_assoc; reflexivity.
Qed.

Lemma C3_credential_failure_witness :
  let e := mk_exn FileNotFoundError
             "[Errno 2] No such file or directory: '/home/op/.config/gcloud/application_default_credentials.json'" in
  strptime_Ymd Sample.os_without_credentials (cutoff_date Sample.args)
  = Return Sample.cutoff
  /\ from_authorized_user_file Sample.os_without_credentials
       (adc_path Sample.os_without_credentials
          (<["GOOGLE_CLOUD_PROJECT" := "demo-project"]> (environ Sample.shell)))
     = Raise e
  /\ main Sample.os_without_credentials Sample.args Sample.shell
     = (Return tt,
        {| environ := <["GOOGLE_CLOUD_PROJECT" := "demo-project"]>
                        (environ Sample.shell);
           files := files Sample.shell;
           log := [searching_record Sample.args; no_credentials_record;
                   main_error e] |}).
Proof.
  assert (Hparse : strptime_Ymd Sample.os_without_credentials
                     (cutoff_date Sample.args) = Return Sample.cutoff)
    by reflexivity.
  assert (Hread : from_authorized_user_file Sample.os_without_credentials
            (adc_path Sample.os_without_credentials
               (<["GOOGLE_CLOUD_PROJECT" := project_id Sample.args]>
                  (environ Sample.shell)))
          = Raise (mk_exn FileNotFoundError
                     "[Errno 2] No such file or directory: '/home/op/.config/gcloud/application_default_credentials.json'"))
    by (vm_compute; reflexivity).
  split; [exact Hparse|]. split; [exact Hread|].
  exact (proj2 (C3_credential_failure Sample.os_without_credentials
                  Sample.args Sample.shell Sample.cutoff _ Hparse Hread)).
Defined.

(** On the sample platform without a credential file [main] returns; no
    exception leaves it. *)
Lemma C3_main_returns_without_credentials :
  from_authorized_user_file Sample.os_without_credentials
    (adc_path Sample.os_without_credentials
       (<["GOOGLE_CLOUD_PROJECT" := "demo-project"]> (environ Sample.shell)))
  = Raise (mk_exn FileNotFoundError
             "[Errno 2] No such file or directory: '/home/op/.config/gcloud/application_default_credentials.json'")
  /\ fst (main Sample.os_without_credentials Sample.args Sample.shell)
     = Return tt
  /\ ~ terminates_by_raising Sample.os_without_credentials Sample.args
         Sample.shell.
Proof.
  split; [vm_compute; reflexivity|].
  assert (H : fst (main Sample.os_without_credentials Sample.args
                     Sample.shell) = Return tt)
    by (vm_compute; reflexivity).
  split; [exact H|].
  intros [e [p' Hraise]]. rewrite Hraise in H. discriminate H.
Qed.

Lemma get_storage_client_files (os : platform) (project : string)
    (p : process) :
  files (snd (get_storage_client os project p)) = files p.
Proof.
  rewrite get_storage_client_run. cbv zeta.
  assert (He : forall e,
            files
              (if isinstance e [DefaultCredentialsError; FileNotFoundError]
               then add_log (with_project project p) [no_credentials_record]
               else with_project project p)
            = files p).
  { intros e. now destruct (isinstance e _). }
  destruct (from_authorized_user_file os _) as [credentials|e]; simpl;
    [|apply He].
  destruct (storage_Client os project credentials) as [client|e]; simpl;
    [reflexivity|apply He].
Qed.

Lemma get_unmodified_buckets_listing_fails (os : platform)
    (client : Client.t) (cutoff : naive_datetime) (max_workers : Z)
    (p : process) (e : exn) :
  Client.list_buckets client = Raise e ->
  get_unmodified_buckets os client cutoff max_workers p
  = (Return [], add_log p [listing_error e]).
Proof.
  intros Hl.
  destruct (get_unmodified_buckets_run os client cutoff max_workers p)
    as [results [records [Hrun H]]].
  rewrite Hl in H. destruct H as [-> ->]. exact Hrun.
Qed.

(** C7.  When the listing of the project's buckets raises, the coordinator
    returns the empty result set, having logged the failure, and [main]
    goes on to log that nothing was found and returns: the process ends
    normally. *)
Theorem C7_listing_failure (os : platform) (args : arguments) (q : process)
    (cutoff : naive_datetime) (client : Client.t) (p1 : process) (e : exn) :
  strptime_Ymd os (cutoff_date args) = Return cutoff ->
  get_storage_client os (project_id args) (add_log q [searching_record args])
  = (Return client, p1) ->
  Client.list_buckets client = Raise e ->
  (forall max_workers p,
     get_unmodified_buckets os client cutoff max_workers p
     = (Return [], add_log p [listing_error e]))
  /\ main os args q
     = (Return tt, add_log p1 [listing_error e; none_found_record]).
Proof.
  intros Hparse Hclient Hl.
  split; [intros; now apply get_unmodified_buckets_listing_fails|].
  rewrite (main_run os args q cutoff Hparse), Hclient.
  rewrite (get_unmodified_buckets_listing_fails _ _ _ _ _ e Hl).
  now rewrite add_log_app.
Qed.

Lemma C7_listing_failure_witness :
  let os := Sample.os_with Sample.client_without_listing in
  let p1 := with_project "demo-project"
              (add_log Sample.shell [searching_record Sample.args]) in
  strptime_Ymd os (cutoff_date Sample.args) = Return Sample.cutoff
  /\ get_storage_client os (project_id Sample.args)
       (add_log Sample.shell [searching_record Sample.args])
     = (Return Sample.client_without_listing, p1)
  /\ Client.list_buckets Sample.client_without_listing
     = Raise Sample.forbidden
  /\ get_unmodified_buckets os Sample.client_without_listing Sample.cutoff 10
       p1
     = (Return [], add_log p1 [listing_error Sample.forbidden])
  /\ main os Sample.args Sample.shell
     = (Return tt,
        add_log p1 [listing_error Sample.forbidden; none_found_record]).
Proof.
  cbv zeta.
  assert (Hparse : strptime_Ymd (Sample.os_with Sample.client_without_listing)
                     (cutoff_date Sample.args) = Return Sample.cutoff)
    by reflexivity.
  assert (Hclient :
            get_storage_client (Sample.os_with Sample.client_without_listing)
              (project_id Sample.args)
              (add_log Sample.shell [searching_record Sample.args])
            = (Return Sample.client_without_listing,
               with_project "demo-project"
                 (add_log Sample.shell [searching_record Sample.args])))
    by (vm_compute; reflexivity).
  destruct (C7_listing_failure (Sample.os_with Sample.client_without_listing)
              Sample.args Sample.shell Sample.cutoff
              Sample.client_without_listing _ Sample.forbidden
              Hparse Hclient eq_refl) as [Hscan Hmain].
  split; [exact Hparse|]. split; [exact Hclient|]. split; [reflexivity|].
  split; [apply Hscan|exact Hmain].
Defined.

(** C8.  When the scan returns the empty result set, [main] logs that
    nothing was found and returns without a call of the report writer: the
    files are those the process started with, so no report is made and a
    file at the output path stays as it was. *)
Theorem C8_empty_result_no_report (os : platform) (args : arguments)
    (q : process) (cutoff : naive_datetime) (client : Client.t)
    (p1 p2 : process) :
  strptime_Ymd os (cutoff_date args) = Return cutoff ->
  get_storage_client os (project_id args) (add_log q [searching_record args])
  = (Return client, p1) ->
  get_unmodified_buckets os client cutoff (max_workers args) p1
  = (Return [], p2) ->
  main os args q = (Return tt, add_log p2 [none_found_record])
  /\ files (snd (main os args q)) = files q
  /\ files (snd (main os args q)) !! output args = files q !! output args.
Proof.
  intros Hparse Hclient Hscan.
  assert (Hmain : main os args q = (Return tt, add_log p2 [none_found_record])).
  { now rewrite (main_run os args q cutoff Hparse), Hclient, Hscan. }
  assert (Hfiles : files (snd (main os args q)) = files q).
  { rewrite Hmain. simpl.
    destruct (get_unmodified_buckets_run os client cutoff (max_workers args)
                p1) as [results [records [Hrun _]]].
    rewrite Hscan in Hrun. inversion Hrun; subst p2. simpl.
    pose proof (get_storage_client_files os (project_id args)
                  (add_log q [searching_record args])) as H1.
    rewrite Hclient in H1. exact H1. }
  split; [exact Hmain|]. split; [exact Hfiles|]. now rewrite Hfiles.
Qed.

Lemma C8_empty_result_no_report_witness :
  let os := Sample.os_with Sample.client_nothing_old in
  let p1 := with_project "demo-project"
              (add_log Sample.shell [searching_record Sample.args]) in
  strptime_Ymd os (cutoff_date Sample.args) = Return Sample.cutoff
  /\ get_storage_client os (project_id Sample.args)
       (add_log Sample.shell [searching_record Sample.args])
     = (Return Sample.client_nothing_old, p1)
  /\ get_unmodified_buckets os Sample.client_nothing_old Sample.cutoff
       (max_workers Sample.args) p1
     = (Return [], p1)
  /\ main os Sample.args Sample.shell
     = (Return tt, add_log p1 [none_found_record])
  /\ files (snd (main os Sample.args Sample.shell)) = files Sample.shell.
Proof.
  cbv zeta.
  assert (Hparse : strptime_Ymd (Sample.os_with Sample.client_nothing_old)
                     (cutoff_date Sample.args) = Return Sample.cutoff)
    by reflexivity.
  assert (Hclient :
            get_storage_client (Sample.os_with Sample.client_nothing_old)
              (project_id Sample.args)
              (add_log Sample.shell [searching_record Sample.args])
            = (Return Sample.client_nothing_old,
               with_project "demo-project"
                 (add_log Sample.shell [searching_record Sample.args])))
    by (vm_compute; reflexivity).
  assert (Hscan :
            get_unmodified_buckets (Sample.os_with Sample.client_nothing_old)
              Sample.client_nothing_old Sample.cutoff
              (max_workers Sample.args)
              (with_project "demo-project"
                 (add_log Sample.shell [searching_record Sample.args]))
            = (Return [],
               with_project "demo-project"
                 (add_log Sample.shell [searching_record Sample.args])))
    by (vm_compute; reflexivity).
  destruct (C8_empty_result_no_report
              (Sample.os_with Sample.client_nothing_old) Sample.args
              Sample.shell Sample.cutoff Sample.client_nothing_old _ _
              Hparse Hclient Hscan) as [Hmain [Hfiles _]].
  split; [exact Hparse|]. split; [exact Hclient|]. split; [exact Hscan|].
  split; [exact Hmain|exact Hfiles].
Defined.

(** ** The report *)





(** *** The cell writes *)





Lemma header_loop_returns :
  header_loop (set_title Workbook_active "Unmodified Buckets")
  = Return (write_headers (set_title Workbook_active "Unmodified Buckets")).
Proof. vm_compute. reflexivity. Qed.




Lemma check_string_raises (s : string) (e : exn) :
  check_string s = Raise e ->
  exc_type e = OtherException "IllegalCharacterError".
Proof.
  unfold check_string. cbv zeta.
  generalize (truncate (Z.to_nat 32767) s). intros v.
  destruct (existsb _ _); [|discriminate].
  intros H. injection H as <-. reflexivity.
Qed.

Lemma cell_write_raises (ws : worksheet) (r c : nat) (v : option string)
    (e : exn) :
  cell_write ws r c v = Raise e ->
  exc_type e = OtherException "IllegalCharacterError".
Proof.
  unfold cell_write. destruct v as [s|]; [|discriminate].
  destruct (check_string s) as [v'|e'] eqn:H; simpl; [discriminate|].
  intros He. inversion He; subst. now apply (check_string_raises s).
Qed.

Lemma for_each_raises {A} (body : worksheet -> A -> outcome worksheet)
    (P : exn -> Prop) (items : list A) (ws : worksheet) (e : exn) :
  (forall ws x e, body ws x = Raise e -> P e) ->
  for_each body items ws = Raise e -> P e.
Proof.
  intros Hbody. revert ws. induction items as [|x items IH]; intros ws;
    simpl; [discriminate|].
  destruct (body ws x) as [ws'|e'] eqn:Hx; simpl.
  - apply IH.
  - intros He. inversion He; subst. now apply (Hbody ws x).
Qed.

Lemma row_writes_raises (ws : worksheet) (row : nat) (b : ScanResult.t)
    (e : exn) :
  row_writes ws row b = Raise e ->
  exc_type e = OtherException "IllegalCharacterError".
Proof.
  unfold row_writes.
  repeat match goal with
         | |- obind (cell_write ?w ?r ?c ?v) _ = Raise _ -> _ =>
             let H := fresh "H" in
             destruct (cell_write w r c v) eqn:H; cbn [obind];
             [| intros He; injection He as <-;
                exact (cell_write_raises _ _ _ _ _ H)]
         end.
  apply cell_write_raises.
Qed.

(** The only exception of the loops of the writer is the refusal of a
    text. *)
Lemma build_workbook_raises (buckets : list ScanResult.t) (e : exn) :
  build_workbook buckets = Raise e ->
  exc_type e = OtherException "IllegalCharacterError".
Proof.
  unfold build_workbook. cbv zeta. rewrite header_loop_returns.
  cbn [obind]. unfold data_loop.
  destruct (for_each _ (enumerate buckets 2) _) as [ws|e'] eqn:Hloop;
    cbn [obind]; [discriminate|].
  intros He. injection He as <-.
  refine (for_each_raises _
            (fun e => exc_type e = OtherException "IllegalCharacterError")
            _ _ _ _ Hloop).
  intros ws [row b] e0. apply row_writes_raises.
Qed.

Lemma adjust_columns_cells (ws : worksheet) :
  cells (adjust_columns ws) = cells ws /\ title (adjust_columns ws) = title ws.
Proof.
  unfold adjust_columns. generalize (seq 1 (max_column ws)).
  intros l. revert ws. induction l as [|c l IH]; intros ws; simpl.
  - now split.
  - destruct (IH (adjust_column ws c)) as [-> ->]. now split.
Qed.














(** * Further properties of the script *)

(** ** The scanner: what excludes a bucket without a diagnostic *)

(** X1.  A bucket whose creation time, timezone-stripped, is strictly
    after the cutoff gets no result and no log record, in every state and
    whatever its metadata-update time is and whatever the object listing
    would yield or raise: the objects are not listed. *)
Theorem created_after_cutoff_silent (client : Client.t)
    (bucket_name : string) (cutoff : naive_datetime)
    (b : Bucket.properties) (q : process) :
  Client.bucket_resource client bucket_name = Return b ->
  naive_gt (replace_tzinfo_None (Bucket.p_time_created b)) cutoff = true ->
  check_bucket_modification client bucket_name cutoff q = (Return None, q).
Proof.
  intros Hb Hgt. unfold check_bucket_modification. run.
  rewrite Hb. simpl. unfold Bucket.time_created. simpl. now rewrite Hgt.
Qed.

Lemma created_after_cutoff_silent_witness :
  Client.bucket_resource Sample.client "fresh" = Return Sample.fresh
  /\ naive_gt (replace_tzinfo_None (Bucket.p_time_created Sample.fresh))
       Sample.cutoff = true
  /\ check_bucket_modification Sample.client "fresh" Sample.cutoff
       Sample.shell = (Return None, Sample.shell).
Proof.
  split; [reflexivity|]. split; [reflexivity|].
  apply (created_after_cutoff_silent Sample.client "fresh" Sample.cutoff
           Sample.fresh Sample.shell); reflexivity.
Defined.

(** X2.  A bucket created at or before the cutoff whose metadata-update
    time is present and strictly after the cutoff gets no result and no
    log record, whatever the object listing would yield or raise. *)
Theorem updated_after_cutoff_silent (client : Client.t)
    (bucket_name : string) (cutoff : naive_datetime)
    (b : Bucket.properties) (u : datetime) (q : process) :
  Client.bucket_resource client bucket_name = Return b ->
  Bucket.p_updated b = Some u ->
  naive_gt (replace_tzinfo_None u) cutoff = true ->
  check_bucket_modification client bucket_name cutoff q = (Return None, q).
Proof.
  intros Hb Hu Hgt. unfold check_bucket_modification. run.
  rewrite Hb. simpl. unfold Bucket.time_created, Bucket.updated. simpl.
  destruct (naive_gt (replace_tzinfo_None (Bucket.p_time_created b)) cutoff);
    [reflexivity|].
  rewrite Hu. simpl. now rewrite Hgt.
Qed.

Lemma updated_after_cutoff_silent_witness :
  let b := Bucket.mk_properties (Sample.utc 2020 5 17 10 30 0)
             (Some (Sample.utc 2024 3 2 8 15 42)) (Some "US")
             (Some "STANDARD") in
  let client := Client.mk "demo-project" (Return [])
                  (fun _ => Return b) (fun _ => IterRaise Sample.forbidden) in
  naive_gt (replace_tzinfo_None (Sample.utc 2024 3 2 8 15 42)) Sample.cutoff
  = true
  /\ check_bucket_modification client "touched" Sample.cutoff Sample.shell
     = (Return None, Sample.shell).
Proof.
  cbv zeta. split; [reflexivity|].
  apply (updated_after_cutoff_silent _ "touched" Sample.cutoff
           (Bucket.mk_properties (Sample.utc 2020 5 17 10 30 0)
              (Some (Sample.utc 2024 3 2 8 15 42)) (Some "US")
              (Some "STANDARD"))
           (Sample.utc 2024 3 2 8 15 42) Sample.shell); reflexivity.
Defined.

(** X3.  The first object that was modified strictly after the cutoff
    ends the scan of its bucket with no result and no log record, when the
    objects listed before it all have a time at or before the cutoff:
    what the listing would yield or raise after that object is never
    looked at. *)
Theorem first_modified_object_silent (client : Client.t)
    (bucket_name : string) (cutoff : naive_datetime)
    (b : Bucket.properties) (pre : list Blob.t) (o : Blob.t) (t : datetime)
    (rest : blob_iterator) (q : process) :
  Client.bucket_resource client bucket_name = Return b ->
  Client.list_blobs client bucket_name = iter_app pre (Yield o rest) ->
  Forall (object_unmodified cutoff) pre ->
  Blob.updated o = Some t ->
  naive_gt (replace_tzinfo_None t) cutoff = true ->
  check_bucket_modification client bucket_name cutoff q = (Return None, q).
Proof.
  intros Hb Hl Hpre Ho Hgt. unfold check_bucket_modification. run.
  rewrite Hb. simpl. unfold Bucket.time_created, Bucket.updated. simpl.
  destruct (naive_gt (replace_tzinfo_None (Bucket.p_time_created b)) cutoff);
    [reflexivity|].
  destruct (updated_after (Bucket.p_updated b) cutoff); [reflexivity|].
  rewrite Hl, (for_blob_in_app _ _ _ _ Hpre). simpl. run.
  rewrite Ho. simpl. now rewrite Hgt.
Qed.

Lemma first_modified_object_silent_witness :
  let client := Client.mk "demo-project" (Return [])
                  (fun _ => Return Sample.plain)
                  (fun _ => Yield Sample.old_object
                              (Yield Sample.new_object
                                 (IterRaise Sample.unavailable))) in
  Forall (object_unmodified Sample.cutoff) [Sample.old_object]
  /\ Blob.updated Sample.new_object = Some (Sample.utc 2024 2 3 12 0 0)
  /\ naive_gt (replace_tzinfo_None (Sample.utc 2024 2 3 12 0 0))
       Sample.cutoff = true
  /\ check_bucket_modification client "busy" Sample.cutoff Sample.shell
     = (Return None, Sample.shell).
Proof.
  cbv zeta.
  assert (Hpre : Forall (object_unmodified Sample.cutoff)
                   [Sample.old_object]).
  { constructor; [|constructor]. eexists. split; reflexivity. }
  split; [exact Hpre|]. split; [reflexivity|]. split; [reflexivity|].
  apply (first_modified_object_silent _ "busy" Sample.cutoff Sample.plain
           [Sample.old_object] Sample.new_object
           (Sample.utc 2024 2 3 12 0 0) (IterRaise Sample.unavailable)
           Sample.shell); try reflexivity.
  exact Hpre.
Defined.

(** The three ways a scan ends. *)
Lemma scan_cases (client : Client.t) (bucket_name : string)
    (cutoff : naive_datetime) :
  (exists r, scanned client bucket_name cutoff = Some r
             /\ scan_log client bucket_name cutoff = [])
  \/ (scanned client bucket_name cutoff = None
      /\ scan_log client bucket_name cutoff = [])
  \/ (scanned client bucket_name cutoff = None
      /\ exists e, scan_log client bucket_name cutoff
                   = [scan_error bucket_name e]).
Proof.
  unfold scanned, value_of, scan_log, log_of, check_bucket_modification.
  run.
  destruct (Client.bucket_resource client bucket_name) as [b|e]; simpl.
  2:{ right. right. split; [reflexivity|]. now exists e. }
  destruct (naive_gt _ cutoff); simpl; [right; left; now split|].
  destruct (updated_after _ cutoff); simpl; [right; left; now split|].
  pose proof (for_blob_in_state (Client.list_blobs client bucket_name) cutoff
                initial_process) as Hq.
  destruct (for_blob_in (Client.list_blobs client bucket_name) cutoff
              initial_process) as [[[[v|]|]|e] q]; simpl in *;
    inversion Hq; subst q; simpl.
  - left. eexists. now split.
  - right. left. now split.
  - left. eexists. now split.
  - right. right. split; [reflexivity|]. now exists e.
Qed.

(** X4.  The scan of a bucket logs at most one record, and only when it
    gives no result: a bucket with a Scan Result leaves no diagnostic, and
    a diagnostic is a single ERROR record that starts with "Error
    processing bucket" and the bucket's name. *)
Theorem scan_logs_at_most_one_error (client : Client.t)
    (bucket_name : string) (cutoff : naive_datetime) :
  (length (scan_log client bucket_name cutoff) <= 1)%nat
  /\ (is_Some (scanned client bucket_name cutoff) ->
      scan_log client bucket_name cutoff = [])
  /\ (forall x, In x (scan_log client bucket_name cutoff) ->
        scanned client bucket_name cutoff = None
        /\ exists e, x = scan_error bucket_name e).
Proof.
  destruct (scan_cases client bucket_name cutoff)
    as [[r [Hs Hl]]|[[Hs Hl]|[Hs [e Hl]]]]; rewrite Hs, Hl; simpl.
  - split; [lia|]. split; [reflexivity|]. intros x [].
  - split; [lia|]. split; [reflexivity|]. intros x [].
  - split; [lia|]. split; [intros [x Hx]; discriminate|].
    intros x [<-|[]]. split; [reflexivity|]. now exists e.
Qed.

(** ** The scanner and the coordinator: the result set *)

Lemma lex_compare_le_trans (a b c : list Z) :
  lex_compare a b <> Gt -> lex_compare b c <> Gt -> lex_compare a c <> Gt.
Proof.
  revert b c. induction a as [|x a IH]; intros b c Hab Hbc.
  - destruct c; discriminate.
  - destruct b as [|y b]; [now simpl in Hab|].
    destruct c as [|z c]; [now simpl in Hbc|].
    simpl in *.
    destruct (Z.compare_spec x y), (Z.compare_spec y z),
      (Z.compare_spec x z);
      try congruence; try lia.
    now apply (IH b c).
Qed.

Lemma naive_le_trans (a b c : naive_datetime) :
  naive_le a b = true -> naive_le b c = true -> naive_le a c = true.
Proof.
  unfold naive_le, naive_cmp. intros Hab Hbc.
  pose proof (lex_compare_le_trans (timetuple a) (timetuple b) (timetuple c))
    as H.
  destruct (lex_compare (timetuple a) (timetuple b)); try discriminate;
    destruct (lex_compare (timetuple b) (timetuple c)); try discriminate;
    destruct (lex_compare (timetuple a) (timetuple c));
    try reflexivity; exfalso; apply H; congruence.
Qed.

Lemma passes_recency_checks_later (c1 c2 : naive_datetime)
    (b : Bucket.properties) (objects : list Blob.t) :
  naive_le c1 c2 = true ->
  passes_recency_checks c1 b objects -> passes_recency_checks c2 b objects.
Proof.
  intros Hle (Hc & Hu & Ho). unfold at_or_before in *.
  split; [eapply naive_le_trans; eauto|].
  split; [intros u Hsome; eapply naive_le_trans; eauto|].
  eapply Forall_impl; [exact Ho|].
  intros o (t & Ht & Hle'). exists t. split; [assumption|].
  unfold at_or_before in *. eapply naive_le_trans; eauto.
Qed.

(** X5.  A bucket that is unmodified since a cutoff is unmodified since
    every later cutoff, with the same Scan Result: moving the cutoff
    forward never removes a bucket from the report. *)
Theorem scanned_later_cutoff (client : Client.t) (bucket_name : string)
    (c1 c2 : naive_datetime) (r : ScanResult.t) :
  naive_le c1 c2 = true ->
  scanned client bucket_name c1 = Some r ->
  scanned client bucket_name c2 = Some r.
Proof.
  intros Hle Hs. apply scanned_Some_iff in Hs.
  destruct Hs as (b & Hb & Hc & Hp & Hr).
  apply scanned_Some_iff. exists b.
  split; [assumption|]. split; [assumption|]. split; [|assumption].
  exact (passes_recency_checks_later c1 c2 b _ Hle Hp).
Qed.

Lemma scanned_later_cutoff_witness :
  naive_le Sample.cutoff More.cutoff_2025 = true
  /\ scanned Sample.client "archive" Sample.cutoff
     = Some (result_for "archive" Sample.archive)
  /\ scanned Sample.client "archive" More.cutoff_2025
     = Some (result_for "archive" Sample.archive).
Proof.
  assert (Hs : scanned Sample.client "archive" Sample.cutoff
               = Some (result_for "archive" Sample.archive))
    by (vm_compute; reflexivity).
  split; [reflexivity|]. split; [exact Hs|].
  apply (scanned_later_cutoff Sample.client "archive" Sample.cutoff
           More.cutoff_2025 _ eq_refl Hs).
Defined.

(** What the coordinator returns is what its run lemma names. *)
Lemma scan_returns_run (os : platform) (client : Client.t)
    (cutoff : naive_datetime) (max_workers : Z) (p : process)
    (results : list ScanResult.t) :
  scan_returns os client cutoff max_workers p results ->
  match Client.list_buckets client with
  | Raise e => results = []
  | Return buckets =>
      if (max_workers <=? 0)%Z then results = []
      else Permutation results
             (omap (fun b => scanned client (Bucket.name b) cutoff) buckets)
  end.
Proof.
  intros [p' Hret].
  destruct (get_unmodified_buckets_run os client cutoff max_workers p)
    as [results' [records [Hrun H]]].
  rewrite Hret in Hrun. inversion Hrun; subst results'.
  destruct (Client.list_buckets client) as [buckets|e]; [|apply H].
  destruct (max_workers <=? 0)%Z; apply H.
Qed.

(** X6.  Every Scan Result in a result set, in every run, is the result
    of a listed bucket whose metadata was fetched: it carries that
    bucket's name, creation time, location and storage class, and both
    its creation time and its reported last-modified time are at or
    before the cutoff. *)
Theorem results_are_old_listed_buckets (os : platform) (client : Client.t)
    (cutoff : naive_datetime) (max_workers : Z) (p : process)
    (results : list ScanResult.t) (r : ScanResult.t) :
  scan_returns os client cutoff max_workers p results ->
  In r results ->
  exists buckets B b,
    Client.list_buckets client = Return buckets
    /\ In B buckets
    /\ Client.bucket_resource client (Bucket.name B) = Return b
    /\ ScanResult.name r = Bucket.name B
    /\ ScanResult.created r = Bucket.p_time_created b
    /\ ScanResult.location r = Bucket.p_location b
    /\ ScanResult.storage_class r = Bucket.p_storage_class b
    /\ at_or_before cutoff (ScanResult.created r)
    /\ at_or_before cutoff (ScanResult.last_modified r).
Proof.
  intros Hret Hr. apply scan_returns_run in Hret.
  destruct (Client.list_buckets client) as [buckets|e];
    [|subst results; destruct Hr].
  destruct (max_workers <=? 0)%Z; [subst results; destruct Hr|].
  apply (Permutation_in _ Hret), list_elem_of_In, list_elem_of_omap in Hr.
  destruct Hr as [B [HB Hs]]. apply list_elem_of_In in HB.
  apply scanned_Some_iff in Hs.
  destruct Hs as (b & Hb & _ & (Hc & Hu & _) & ->).
  exists buckets, B, b. simpl.
  repeat split; try assumption; try reflexivity.
  destruct (Bucket.p_updated b) as [u|]; [now apply Hu|assumption].
Qed.

Lemma results_are_old_listed_buckets_witness :
  let r := result_for "archive" Sample.archive in
  scan_returns Sample.os Sample.client Sample.cutoff 10 Sample.shell
    More.results
  /\ In r More.results
  /\ exists buckets B b,
       Client.list_buckets Sample.client = Return buckets
       /\ In B buckets
       /\ Client.bucket_resource Sample.client (Bucket.name B) = Return b
       /\ ScanResult.name r = Bucket.name B
       /\ ScanResult.created r = Bucket.p_time_created b
       /\ ScanResult.location r = Bucket.p_location b
       /\ ScanResult.storage_class r = Bucket.p_storage_class b
       /\ at_or_before Sample.cutoff (ScanResult.created r)
       /\ at_or_before Sample.cutoff (ScanResult.last_modified r).
Proof.
  cbv zeta.
  assert (H : scan_returns Sample.os Sample.client Sample.cutoff 10
                Sample.shell More.results).
  { eexists. vm_compute. reflexivity. }
  assert (Hin : In (result_for "archive" Sample.archive) More.results)
    by (simpl; auto).
  split; [exact H|]. split; [exact Hin|].
  apply (results_are_old_listed_buckets Sample.os Sample.client
           Sample.cutoff 10 Sample.shell More.results _ H Hin).
Defined.

(** X7.  The result set does not depend on the order in which the futures
    complete, on the number of workers (as long as there is one) or on
    the state the scan starts in: two runs over the same client and
    cutoff return the same Scan Results, up to their order. *)
Theorem results_independent_of_schedule (os1 os2 : platform)
    (client : Client.t) (cutoff : naive_datetime) (w1 w2 : Z)
    (p1 p2 : process) (results1 results2 : list ScanResult.t) :
  (0 < w1)%Z -> (0 < w2)%Z ->
  scan_returns os1 client cutoff w1 p1 results1 ->
  scan_returns os2 client cutoff w2 p2 results2 ->
  Permutation results1 results2.
Proof.
  intros Hw1 Hw2 H1 H2.
  apply scan_returns_run in H1. apply scan_returns_run in H2.
  destruct (Client.list_buckets client) as [buckets|e].
  - destruct (Z.leb_spec w1 0); [lia|]. destruct (Z.leb_spec w2 0); [lia|].
    rewrite H1, H2. reflexivity.
  - subst. reflexivity.
Qed.

Lemma results_independent_of_schedule_witness :
  (0 < 10)%Z /\ (0 < 1)%Z
  /\ scan_returns Sample.os Sample.client Sample.cutoff 10 Sample.shell
       [result_for "boundary" Sample.boundary;
        result_for "archive" Sample.archive]
  /\ scan_returns More.os_in_order Sample.client Sample.cutoff 1
       More.shell_with_files
       [result_for "archive" Sample.archive;
        result_for "boundary" Sample.boundary]
  /\ Permutation
       [result_for "boundary" Sample.boundary;
        result_for "archive" Sample.archive]
       [result_for "archive" Sample.archive;
        result_for "boundary" Sample.boundary].
Proof.
  assert (H1 : scan_returns Sample.os Sample.client Sample.cutoff 10
                 Sample.shell
                 [result_for "boundary" Sample.boundary;
                  result_for "archive" Sample.archive]).
  { eexists. vm_compute. reflexivity. }
  assert (H2 : scan_returns More.os_in_order Sample.client Sample.cutoff 1
                 More.shell_with_files
                 [result_for "archive" Sample.archive;
                  result_for "boundary" Sample.boundary]).
  { eexists. vm_compute. reflexivity. }
  assert (Hw1 : (0 < 10)%Z) by lia. assert (Hw2 : (0 < 1)%Z) by lia.
  split; [exact Hw1|]. split; [exact Hw2|]. split; [exact H1|].
  split; [exact H2|].
  apply (results_independent_of_schedule Sample.os More.os_in_order
           Sample.client Sample.cutoff 10 1 Sample.shell
           More.shell_with_files _ _ Hw1 Hw2 H1 H2).
Defined.

(** X8.  With a worker count of zero or less the pool cannot be made: the
    coordinator scans no bucket, logs that one failure and returns the
    empty result set, whatever the project holds. *)
Theorem no_workers_no_results (os : platform) (client : Client.t)
    (cutoff : naive_datetime) (max_workers : Z) (p : process)
    (buckets : list Bucket.t) :
  Client.list_buckets client = Return buckets ->
  (max_workers <= 0)%Z ->
  get_unmodified_buckets os client cutoff max_workers p
  = (Return [],
     add_log p
       [listing_error
          (mk_exn ValueError "max_workers must be greater than 0")]).
Proof.
  intros Hl Hw. unfold get_unmodified_buckets, ThreadPoolExecutor. run.
  rewrite Hl. simpl.
  destruct (Z.leb_spec max_workers 0) as [_|Hgt]; [reflexivity|lia].
Qed.

Lemma no_workers_no_results_witness :
  Client.list_buckets Sample.client = Return Sample.listing
  /\ (0 <= 0)%Z
  /\ get_unmodified_buckets Sample.os Sample.client Sample.cutoff 0
       Sample.shell
     = (Return [],
        add_log Sample.shell
          [listing_error
             (mk_exn ValueError "max_workers must be greater than 0")]).
Proof.
  split; [reflexivity|]. split; [lia|].
  apply (no_workers_no_results Sample.os Sample.client Sample.cutoff 0
           Sample.shell Sample.listing); [reflexivity|lia].
Defined.

(** X9.  The coordinator returns in every state and for every client: no
    exception leaves it.  It changes neither the environment nor the
    files, and what it adds to the log are ERROR records only. *)
Theorem coordinator_only_logs_errors (os : platform) (client : Client.t)
    (cutoff : naive_datetime) (max_workers : Z) (p : process) :
  exists results p',
    get_unmodified_buckets os client cutoff max_workers p
    = (Return results, p')
    /\ environ p' = environ p
    /\ files p' = files p
    /\ exists records,
         log p' = log p ++ records
         /\ Forall (fun x => fst x = ERROR) records.
Proof.
  destruct (get_unmodified_buckets_run os client cutoff max_workers p)
    as [results [records [Hrun H]]].
  exists results, (add_log p records). split; [exact Hrun|].
  split; [reflexivity|]. split; [reflexivity|].
  exists records. split; [reflexivity|].
  destruct (Client.list_buckets client) as [buckets|e].
  - destruct (max_workers <=? 0)%Z.
    + destruct H as [_ [e ->]]. now repeat constructor.
    + destruct H as [_ Hrec]. apply Forall_forall. intros x Hx.
      apply list_elem_of_In, Hrec in Hx. destruct Hx as [b [_ Hx]].
      destruct (scan_cases client (Bucket.name b) cutoff)
        as [[r [_ Hl]]|[[_ Hl]|[_ [e Hl]]]]; rewrite Hl in Hx.
      * destruct Hx.
      * destruct Hx.
      * destruct Hx as [<-|[]]. reflexivity.
  - destruct H as [_ ->]. now repeat constructor.
Qed.

(** X10.  The Scan Results come in the order in which the futures
    complete: the result list is what the completed tasks returned, in
    the order [as_completed] yields them, without the [None]s.  The rows
    of the report follow that order. *)
Theorem results_in_completion_order (os : platform) (client : Client.t)
    (cutoff : naive_datetime) (max_workers : Z) (p : process)
    (buckets : list Bucket.t) :
  Client.list_buckets client = Return buckets ->
  (0 < max_workers)%Z ->
  scan_returns os client cutoff max_workers p
    (omap value_of
       (as_completed os (py (option ScanResult.t))
          (map (fun B => check_bucket_modification client (Bucket.name B)
                           cutoff) buckets))).
Proof.
  intros Hl Hw. unfold scan_returns.
  unfold get_unmodified_buckets, ThreadPoolExecutor, submit_and_complete.
  rewrite Hl. run.
  destruct (Z.leb_spec max_workers 0) as [Hle|_]; [lia|]. simpl.
  set (tasks := map _ buckets).
  pose proof (as_completed_perm os _ tasks) as Hperm.
  assert (Hall : Forall returns_and_logs (as_completed os _ tasks)).
  { apply Forall_forall. intros t Ht. apply list_elem_of_In in Ht.
    apply (Permutation_in _ Hperm) in Ht. apply in_map_iff in Ht.
    destruct Ht as [b [<- _]]. apply check_returns_and_logs. }
  rewrite (run_tasks_values _ Hall). simpl.
  rewrite <- (map_map value_of Return), collect_results_values. simpl.
  rewrite omap_id_fmap. eexists. reflexivity.
Qed.

Lemma results_in_completion_order_witness :
  Client.list_buckets Sample.client = Return Sample.listing
  /\ (0 < 10)%Z
  /\ scan_returns More.os_in_order Sample.client Sample.cutoff 10
       Sample.shell
       [result_for "archive" Sample.archive;
        result_for "boundary" Sample.boundary]
  /\ scan_returns Sample.os Sample.client Sample.cutoff 10 Sample.shell
       [result_for "boundary" Sample.boundary;
        result_for "archive" Sample.archive].
Proof.
  split; [reflexivity|]. split; [lia|]. split.
  - apply (results_in_completion_order More.os_in_order Sample.client
             Sample.cutoff 10 Sample.shell Sample.listing);
      [reflexivity|lia].
  - apply (results_in_completion_order Sample.os Sample.client
             Sample.cutoff 10 Sample.shell Sample.listing);
      [reflexivity|lia].
Defined.

Lemma scanned_names_sublist (client : Client.t) (cutoff : naive_datetime)
    (buckets : list Bucket.t) :
  sublist
    (map ScanResult.name
       (omap (fun b => scanned client (Bucket.name b) cutoff) buckets))
    (map Bucket.name buckets).
Proof.
  induction buckets as [|B buckets IH]; [constructor|]. csimpl.
  destruct (scanned client (Bucket.name B) cutoff) as [r|] eqn:Hs; csimpl.
  - apply scanned_Some_iff in Hs. destruct Hs as (b & _ & _ & _ & ->).
    simpl. now constructor.
  - now constructor.
Qed.

(** X11.  When the listed buckets have distinct names, so have the Scan
    Results: no bucket is reported twice, and there are at most as many
    results as listed buckets. *)
Theorem results_have_distinct_names (os : platform) (client : Client.t)
    (cutoff : naive_datetime) (max_workers : Z) (p : process)
    (buckets : list Bucket.t) (results : list ScanResult.t) :
  Client.list_buckets client = Return buckets ->
  NoDup (map Bucket.name buckets) ->
  scan_returns os client cutoff max_workers p results ->
  NoDup (map ScanResult.name results)
  /\ (length results <= length buckets)%nat.
Proof.
  intros Hl Hnd Hret. apply scan_returns_run in Hret. rewrite Hl in Hret.
  destruct (max_workers <=? 0)%Z.
  { subst results. split; [constructor|simpl; lia]. }
  pose proof (scanned_names_sublist client cutoff buckets) as Hsub.
  split.
  - rewrite Hret. now apply (sublist_NoDup _ _ Hnd).
  - apply sublist_length in Hsub. rewrite !length_map in Hsub.
    now rewrite Hret.
Qed.

Lemma results_have_distinct_names_witness :
  Client.list_buckets Sample.client = Return Sample.listing
  /\ NoDup (map Bucket.name Sample.listing)
  /\ scan_returns Sample.os Sample.client Sample.cutoff 10 Sample.shell
       More.results
  /\ NoDup (map ScanResult.name More.results)
  /\ (length More.results <= length Sample.listing)%nat.
Proof.
  assert (Hnd : NoDup (map Bucket.name Sample.listing)).
  { apply (bool_decide_unpack _). vm_compute. exact I. }
  assert (H : scan_returns Sample.os Sample.client Sample.cutoff 10
                Sample.shell More.results).
  { eexists. vm_compute. reflexivity. }
  split; [reflexivity|]. split; [exact Hnd|]. split; [exact H|].
  apply (results_have_distinct_names Sample.os Sample.client Sample.cutoff
           10 Sample.shell Sample.listing More.results eq_refl Hnd H).
Defined.

(** ** The credential resolver *)

Lemma get_storage_client_environ (os : platform) (project : string)
    (p : process) :
  environ (snd (get_storage_client os project p))
  = <["GOOGLE_CLOUD_PROJECT" := project]> (environ p).
Proof.
  rewrite get_storage_client_run. cbv zeta.
  assert (He : forall e,
            environ
              (if isinstance e [DefaultCredentialsError; FileNotFoundError]
               then add_log (with_project project p) [no_credentials_record]
               else with_project project p)
            = <["GOOGLE_CLOUD_PROJECT" := project]> (environ p)).
  { intros e. now destruct (isinstance e _). }
  destruct (from_authorized_user_file os _) as [credentials|e]; simpl;
    [|apply He].
  destruct (storage_Client os project credentials) as [client|e]; simpl;
    [reflexivity|apply He].
Qed.

Lemma get_storage_client_log (os : platform) (project : string)
    (p : process) :
  match fst (get_storage_client os project p) with
  | Return _ => log (snd (get_storage_client os project p)) = log p
  | Raise e =>
      log (snd (get_storage_client os project p))
      = log p ++ (if isinstance e
                       [DefaultCredentialsError; FileNotFoundError]
                  then [no_credentials_record] else [])
  end.
Proof.
  rewrite get_storage_client_run. cbv zeta.
  assert (He : forall e,
            log (if isinstance e [DefaultCredentialsError; FileNotFoundError]
                 then add_log (with_project project p) [no_credentials_record]
                 else with_project project p)
            = log p ++ (if isinstance e
                             [DefaultCredentialsError; FileNotFoundError]
                        then [no_credentials_record] else [])).
  { intros e. destruct (isinstance e _); simpl; [reflexivity|].
    now rewrite app_nil_r. }
  destruct (from_authorized_user_file os _) as [credentials|e]; simpl;
    [|apply He].
  destruct (storage_Client os project credentials) as [client|e]; simpl;
    [reflexivity|apply He].
Qed.

(** X12.  The resolver never touches the files and adds at most one
    record to the log: none when it returns a client, and when it raises
    the record "Unable to find local credentials..." exactly if the
    exception is a [DefaultCredentialsError] or a [FileNotFoundError];
    any other exception (a credential file that cannot be parsed) goes to
    the caller without a record. *)
Theorem resolver_logs_named_classes_only (os : platform) (project : string)
    (p : process) :
  files (snd (get_storage_client os project p)) = files p
  /\ match fst (get_storage_client os project p) with
     | Return _ => log (snd (get_storage_client os project p)) = log p
     | Raise e =>
         log (snd (get_storage_client os project p))
         = log p ++ (if isinstance e
                          [DefaultCredentialsError; FileNotFoundError]
                     then [no_credentials_record] else [])
     end.
Proof.
  split; [apply get_storage_client_files|apply get_storage_client_log].
Qed.

(** ** The report writer *)

Lemma write_fails_run (os : platform) (buckets : list ScanResult.t)
    (filename : string) (p : process) (e : exn) :
  write_fails os buckets filename e ->
  write_to_excel os buckets filename p
  = (Return tt,
     add_log (if target_opened os buckets filename
              then with_partial filename p else p)
       [write_error e]).
Proof.
  intros Hfail. rewrite write_to_excel_run. unfold target_opened.
  destruct Hfail as [Hb|[wb [Hb Hs]]]; rewrite Hb; [reflexivity|].
  now rewrite Hs.
Qed.

(** X13.  When a cell write or the save raises, [write_to_excel] returns
    all the same: it logs "Error writing to Excel: ..." with the text of
    the exception, keeps the environment and leaves every file other
    than the target as it was.  The target itself is as it was unless the
    save had already opened it, in which case an unfinished file is left
    there. *)
Theorem write_failure_is_logged (os : platform)
    (buckets : list ScanResult.t) (filename : string) (p : process)
    (e : exn) :
  write_fails os buckets filename e ->
  exists p',
    write_to_excel os buckets filename p = (Return tt, p')
    /\ log p' = log p ++ [write_error e]
    /\ environ p' = environ p
    /\ (forall other, other <> filename ->
          files p' !! other = files p !! other)
    /\ files p' !! filename
       = if target_opened os buckets filename then Some Partial
         else files p !! filename.
Proof.
  intros Hfail. rewrite (write_fails_run os buckets filename p e Hfail).
  eexists. split; [reflexivity|].
  destruct (target_opened os buckets filename); simpl.
  - split; [reflexivity|]. split; [reflexivity|].
    split; [|apply lookup_insert_eq].
    intros other Hne. apply lookup_insert_ne. congruence.
  - now repeat split.
Qed.

Lemma write_failure_is_logged_witness :
  let denied := mk_exn PermissionError
                  "[Errno 13] Permission denied: '/proc/report.xlsx'" in
  let full := mk_exn (OtherException "OSError")
                "[Errno 28] No space left on device" in
  write_fails Sample.os More.results "/proc/report.xlsx" denied
  /\ write_fails More.os_disk_full More.results "unmodified_buckets.xlsx"
       full
  /\ write_to_excel Sample.os More.results "/proc/report.xlsx"
       More.shell_with_files
     = (Return tt, add_log More.shell_with_files [write_error denied])
  /\ exists p',
       write_to_excel More.os_disk_full More.results
         "unmodified_buckets.xlsx" More.shell_with_files = (Return tt, p')
       /\ files p' !! "unmodified_buckets.xlsx" = Some Partial
       /\ files p' !! "notes.xlsx"
          = Some (Workbook (set_title Workbook_active "Notes")).
Proof.
  cbv zeta.
  assert (H1 : write_fails Sample.os More.results "/proc/report.xlsx"
                 (mk_exn PermissionError
                    "[Errno 13] Permission denied: '/proc/report.xlsx'")).
  { right. eexists. split; vm_compute; reflexivity. }
  assert (H2 : write_fails More.os_disk_full More.results
                 "unmodified_buckets.xlsx"
                 (mk_exn (OtherException "OSError")
                    "[Errno 28] No space left on device")).
  { right. eexists. split; vm_compute; reflexivity. }
  split; [exact H1|]. split; [exact H2|]. split.
  - vm_compute. reflexivity.
  - destruct (write_failure_is_logged More.os_disk_full More.results
                "unmodified_buckets.xlsx" More.shell_with_files _ H2)
      as [p' [Hrun [_ [_ [Hother Htarget]]]]].
    exists p'. split; [exact Hrun|]. split.
    + rewrite Htarget. vm_compute. reflexivity.
    + rewrite (Hother "notes.xlsx"); [reflexivity|discriminate].
Defined.

Lemma for_each_returns {A} (body : worksheet -> A -> outcome worksheet)
    (P : worksheet -> Prop) (items : list A) (ws ws' : worksheet) :
  (forall ws x ws', P ws -> body ws x = Return ws' -> P ws') ->
  P ws -> for_each body items ws = Return ws' -> P ws'.
Proof.
  intros Hbody. revert ws. induction items as [|x items IH]; intros ws HP;
    simpl.
  - intros H. injection H as <-. exact HP.
  - destruct (body ws x) as [ws1|e] eqn:Hx; simpl; [|discriminate].
    apply IH. exact (Hbody ws x ws1 HP Hx).
Qed.

Lemma cell_write_title (ws : worksheet) (r c : nat) (v : option string)
    (ws' : worksheet) :
  cell_write ws r c v = Return ws' -> title ws' = title ws.
Proof.
  unfold cell_write. destruct v as [s|].
  - destruct (check_string s); simpl; [|discriminate].
    intros H. injection H as <-. reflexivity.
  - intros H. injection H as <-. reflexivity.
Qed.

Lemma row_writes_title (ws : worksheet) (row : nat) (b : ScanResult.t)
    (ws' : worksheet) :
  row_writes ws row b = Return ws' -> title ws' = title ws.
Proof.
  unfold row_writes.
  destruct (cell_write ws row 1 _) as [w1|] eqn:H1; cbn [obind];
    [|discriminate].
  destruct (cell_write w1 row 2 _) as [w2|] eqn:H2; cbn [obind];
    [|discriminate].
  destruct (cell_write w2 row 3 _) as [w3|] eqn:H3; cbn [obind];
    [|discriminate].
  destruct (cell_write w3 row 4 _) as [w4|] eqn:H4; cbn [obind];
    [|discriminate].
  intros H5.
  rewrite (cell_write_title _ _ _ _ _ H5), (cell_write_title _ _ _ _ _ H4),
    (cell_write_title _ _ _ _ _ H3), (cell_write_title _ _ _ _ _ H2).
  exact (cell_write_title _ _ _ _ _ H1).
Qed.

(** Every workbook that the writer builds has the title of line 87. *)
Lemma build_workbook_title (buckets : list ScanResult.t) (wb : worksheet) :
  build_workbook buckets = Return wb -> title wb = "Unmodified Buckets".
Proof.
  unfold build_workbook. cbv zeta. rewrite header_loop_returns.
  cbn [obind]. unfold data_loop.
  destruct (for_each _ (enumerate buckets 2) _) as [ws|e] eqn:Hloop;
    cbn [obind]; [|discriminate].
  intros H. injection H as <-.
  rewrite (proj2 (adjust_columns_cells ws)).
  refine (for_each_returns _ (fun ws => title ws = "Unmodified Buckets")
            _ _ _ _ _ Hloop).
  - intros w [row b] w' Hw Hrow.
    now rewrite (row_writes_title _ _ _ _ Hrow).
  - reflexivity.
Qed.

(** X14.  When every cell write succeeds and the file can be written,
    [write_to_excel] replaces what was at the path by the workbook the
    cell writes built, which depends on the Scan Results alone and is
    titled "Unmodified Buckets"; it leaves every other file as it was,
    keeps the environment, and adds the one record "Results written to
    ...". *)
Theorem write_replaces_one_file (os : platform)
    (buckets : list ScanResult.t) (filename : string) (p : process)
    (wb : worksheet) :
  build_workbook buckets = Return wb ->
  save_error os filename = None ->
  exists p',
    write_to_excel os buckets filename p = (Return tt, p')
    /\ files p' !! filename = Some (Workbook wb)
    /\ title wb = "Unmodified Buckets"
    /\ (forall other, other <> filename ->
          files p' !! other = files p !! other)
    /\ environ p' = environ p
    /\ log p' = log p ++ [written_record filename].
Proof.
  intros Hbuild Hsave. rewrite write_to_excel_run, Hbuild, Hsave.
  eexists. split; [reflexivity|]. simpl.
  split; [apply lookup_insert_eq|].
  split; [exact (build_workbook_title buckets wb Hbuild)|].
  split; [|now split].
  intros other Hne. apply lookup_insert_ne. congruence.
Qed.

Lemma write_replaces_one_file_witness :
  build_workbook More.results = Return (build_sheet More.results)
  /\ save_error Sample.os "unmodified_buckets.xlsx" = None
  /\ exists p',
       write_to_excel Sample.os More.results "unmodified_buckets.xlsx"
         More.shell_with_files = (Return tt, p')
       /\ files p' !! "unmodified_buckets.xlsx"
          = Some (Workbook (build_sheet More.results))
       /\ files p' !! "notes.xlsx"
          = Some (Workbook (set_title Workbook_active "Notes")).
Proof.
  assert (Hbuild : build_workbook More.results
                   = Return (build_sheet More.results))
    by (vm_compute; reflexivity).
  split; [exact Hbuild|]. split; [reflexivity|].
  destruct (write_replaces_one_file Sample.os More.results
              "unmodified_buckets.xlsx" More.shell_with_files _ Hbuild
              eq_refl)
    as [p' [Hrun [Hfile [_ [Hother _]]]]].
  exists p'. split; [exact Hrun|]. split; [exact Hfile|].
  rewrite (Hother "notes.xlsx"); [reflexivity|discriminate].
Defined.

Lemma row_writes_refused (ws : worksheet) (row : nat) (b : ScanResult.t) :
  refused b -> exists e, row_writes ws row b = Raise e.
Proof.
  intros Href. unfold row_writes.
  destruct (cell_write ws row 1 _) as [w1|e1] eqn:H1; cbn [obind];
    [|now exists e1].
  destruct (cell_write w1 row 2 _) as [w2|e2]; cbn [obind];
    [|now exists e2].
  destruct (cell_write w2 row 3 _) as [w3|e3]; cbn [obind];
    [|now exists e3].
  destruct (cell_write w3 row 4 _) as [w4|e4] eqn:H4; cbn [obind];
    [|now exists e4].
  destruct (cell_write w4 row 5 _) as [w5|e5] eqn:H5; [|now exists e5].
  exfalso. unfold cell_write in H1, H4, H5.
  destruct Href as [[e He]|[[s [e [Hs He]]]|[s [e [Hs He]]]]].
  - rewrite He in H1. discriminate H1.
  - rewrite Hs, He in H4. discriminate H4.
  - rewrite Hs, He in H5. discriminate H5.
Qed.

Lemma data_rows_refused (buckets : list ScanResult.t) (k : nat)
    (ws : worksheet) (b : ScanResult.t) :
  In b buckets -> refused b ->
  exists e,
    for_each (fun ws '(row, bucket) => row_writes ws row bucket)
      (enumerate buckets k) ws = Raise e.
Proof.
  intros Hin Href. revert k ws.
  induction buckets as [|b' bs IH]; intros k ws; [destruct Hin|]. simpl.
  destruct (row_writes ws k b') as [ws'|e] eqn:Hrow; cbn [obind];
    [|now exists e].
  destruct Hin as [->|Hin]; [|now apply IH].
  destruct (row_writes_refused ws k b Href) as [e He]. congruence.
Qed.

(** X21.  When a text of some Scan Result is refused by the cells (a name,
    location or storage class with a control character), the writer
    saves nothing, although the file could be written: it logs "Error
    writing to Excel: ..." for an [IllegalCharacterError], returns, and
    leaves the files and the environment as they were. *)
Theorem refused_text_writes_nothing (os : platform)
    (buckets : list ScanResult.t) (filename : string) (p : process)
    (b : ScanResult.t) :
  In b buckets -> refused b ->
  exists e,
    exc_type e = OtherException "IllegalCharacterError"
    /\ write_to_excel os buckets filename p
       = (Return tt, add_log p [write_error e]).
Proof.
  intros Hin Href.
  assert (Hbuild : exists e, build_workbook buckets = Raise e).
  { unfold build_workbook. cbv zeta. rewrite header_loop_returns.
    cbn [obind]. unfold data_loop.
    destruct (data_rows_refused buckets 2
                (write_headers
                   (set_title Workbook_active "Unmodified Buckets"))
                b Hin Href) as [e He].
    rewrite He. now exists e. }
  destruct Hbuild as [e He]. exists e.
  split; [exact (build_workbook_raises buckets e He)|].
  rewrite write_to_excel_run, He. reflexivity.
Qed.

Lemma refused_text_writes_nothing_witness :
  In More.unprintable [result_for "archive" Sample.archive; More.unprintable]
  /\ refused More.unprintable
  /\ save_error Sample.os "unmodified_buckets.xlsx" = None
  /\ exists e,
       exc_type e = OtherException "IllegalCharacterError"
       /\ write_to_excel Sample.os
            [result_for "archive" Sample.archive; More.unprintable]
            "unmodified_buckets.xlsx" More.shell_with_files
          = (Return tt, add_log More.shell_with_files [write_error e]).
Proof.
  assert (Hin : In More.unprintable
                  [result_for "archive" Sample.archive; More.unprintable])
    by (simpl; auto).
  assert (Href : refused More.unprintable).
  { left. eexists. vm_compute. reflexivity. }
  split; [exact Hin|]. split; [exact Href|]. split; [reflexivity|].
  exact (refused_text_writes_nothing Sample.os _ "unmodified_buckets.xlsx"
           More.shell_with_files More.unprintable Hin Href).
Defined.











(** ** The entry point *)

Lemma main_invalid_date (os : platform) (args : arguments) (q : process)
    (e : exn) :
  strptime_Ymd os (cutoff_date args) = Raise e ->
  main os args q
  = if isinstance e [ValueError]
    then (Return tt, add_log q [invalid_date_record])
    else (Raise e, q).
Proof.
  intros Hparse. unfold main. run. rewrite Hparse. simpl.
  now destruct (isinstance e [ValueError]).
Qed.

(** X16.  When the cutoff date does not parse ([strptime] raises
    [ValueError]), [main] logs "Invalid date format. Please use
    YYYY-MM-DD." and returns: the environment is not touched (the project
    variable is not set), no file is written and nothing else is
    logged, so neither the resolver nor the scan has run. *)
Theorem invalid_date_stops_before_scan (os : platform) (args : arguments)
    (q : process) (e : exn) :
  strptime_Ymd os (cutoff_date args) = Raise e ->
  isinstance e [ValueError] = true ->
  main os args q = (Return tt, add_log q [invalid_date_record])
  /\ environ (snd (main os args q)) = environ q
  /\ files (snd (main os args q)) = files q.
Proof.
  intros Hparse Hcls. rewrite (main_invalid_date os args q e Hparse), Hcls.
  now split.
Qed.

Lemma invalid_date_stops_before_scan_witness :
  let e := mk_exn ValueError
             "time data '01/01/2024' does not match format '%Y-%m-%d'" in
  strptime_Ymd Sample.os (cutoff_date More.args_bad_date) = Raise e
  /\ isinstance e [ValueError] = true
  /\ main Sample.os More.args_bad_date Sample.shell
     = (Return tt, add_log Sample.shell [invalid_date_record]).
Proof.
  cbv zeta.
  assert (Hparse : strptime_Ymd Sample.os (cutoff_date More.args_bad_date)
                   = Raise (mk_exn ValueError
                              "time data '01/01/2024' does not match format '%Y-%m-%d'"))
    by (vm_compute; reflexivity).
  split; [exact Hparse|]. split; [reflexivity|].
  exact (proj1 (invalid_date_stops_before_scan Sample.os More.args_bad_date
                  Sample.shell _ Hparse eq_refl)).
Defined.

(** The writer returns in every state; it changes no file but the target,
    keeps the environment and only adds to the log. *)
Lemma write_to_excel_frame (os : platform) (buckets : list ScanResult.t)
    (filename : string) (p : process) :
  exists p',
    write_to_excel os buckets filename p = (Return tt, p')
    /\ environ p' = environ p
    /\ (forall f, f <> filename -> files p' !! f = files p !! f)
    /\ exists records, log p' = log p ++ records.
Proof.
  rewrite write_to_excel_run.
  destruct (build_workbook buckets) as [wb|e].
  - destruct (save_error os filename) as [e|].
    + destruct (opened_before_error os filename); eexists;
        (split; [reflexivity|]); simpl.
      * split; [reflexivity|].
        split; [intros f Hne; apply lookup_insert_ne; congruence|].
        eexists. reflexivity.
      * split; [reflexivity|]. split; [reflexivity|]. eexists. reflexivity.
    + eexists. split; [reflexivity|]. simpl. split; [reflexivity|].
      split; [intros f Hne; apply lookup_insert_ne; congruence|].
      eexists. reflexivity.
  - eexists. split; [reflexivity|]. simpl. split; [reflexivity|].
    split; [reflexivity|]. eexists. reflexivity.
Qed.

(** X17.  Once the command line has been parsed, [main] never ends by an
    exception, whatever the credential store, the service and the file
    system do, as long as the only exception [strptime] raises is
    [ValueError]: every failure of the resolver, of the scan and of the
    writer is caught and [main] returns.  (The exit of argparse on a bad
    command line comes before, at line 122.) *)
Theorem main_always_returns (os : platform) (args : arguments)
    (q : process) :
  (forall e, strptime_Ymd os (cutoff_date args) = Raise e ->
             isinstance e [ValueError] = true) ->
  exists p', main os args q = (Return tt, p').
Proof.
  intros Hcls.
  destruct (strptime_Ymd os (cutoff_date args)) as [cutoff|e] eqn:Hparse.
  - rewrite (main_run os args q cutoff Hparse).
    destruct (get_storage_client os (project_id args) _) as [[client|e] p1];
      [|eexists; reflexivity].
    destruct (get_unmodified_buckets_run os client cutoff (max_workers args)
                p1) as [results [records [-> _]]].
    destruct results as [|r rs]; [eexists; reflexivity|].
    destruct (write_to_excel_frame os (r :: rs) (output args)
                (add_log p1 records)) as [p3 [-> _]].
    eexists. reflexivity.
  - rewrite (main_invalid_date os args q e Hparse), (Hcls e eq_refl).
    eexists. reflexivity.
Qed.

Lemma main_always_returns_witness :
  (forall e, strptime_Ymd More.os_malformed_credentials
               (cutoff_date More.args_read_only) = Raise e ->
             isinstance e [ValueError] = true)
  /\ exists p',
       main More.os_malformed_credentials More.args_read_only Sample.shell
       = (Return tt, p').
Proof.
  assert (H : forall e, strptime_Ymd More.os_malformed_credentials
                          (cutoff_date More.args_read_only) = Raise e ->
                        isinstance e [ValueError] = true).
  { intros e He. vm_compute in He. discriminate He. }
  split; [exact H|].
  exact (main_always_returns More.os_malformed_credentials
           More.args_read_only Sample.shell H).
Defined.

(** X18.  When the scan found buckets and the writer fails (a cell write
    or the save raises), [main] still returns and still logs "Found N
    unmodified buckets" after the writer's "Error writing to Excel: ...".
    Every file other than the one at the output path is as the process
    found it, and so is that one unless the save had already opened
    it. *)
Theorem found_is_logged_when_write_fails (os : platform) (args : arguments)
    (q : process) (cutoff : naive_datetime) (client : Client.t)
    (p1 p2 : process) (r : ScanResult.t) (rs : list ScanResult.t) (e : exn) :
  strptime_Ymd os (cutoff_date args) = Return cutoff ->
  get_storage_client os (project_id args) (add_log q [searching_record args])
  = (Return client, p1) ->
  get_unmodified_buckets os client cutoff (max_workers args) p1
  = (Return (r :: rs), p2) ->
  write_fails os (r :: rs) (output args) e ->
  main os args q
  = (Return tt,
     add_log (if target_opened os (r :: rs) (output args)
              then with_partial (output args) p2 else p2)
       [write_error e; found_record (S (length rs))])
  /\ (forall f, f <> output args ->
        files (snd (main os args q)) !! f = files q !! f)
  /\ (target_opened os (r :: rs) (output args) = false ->
      files (snd (main os args q)) = files q).
Proof.
  intros Hparse Hclient Hscan Hfail.
  assert (Hmain : main os args q
                  = (Return tt,
                     add_log (if target_opened os (r :: rs) (output args)
                              then with_partial (output args) p2 else p2)
                       [write_error e; found_record (S (length rs))])).
  { rewrite (main_run os args q cutoff Hparse), Hclient, Hscan.
    rewrite (write_fails_run os (r :: rs) (output args) p2 e Hfail).
    now rewrite add_log_app. }
  assert (Hfiles : files p2 = files q).
  { destruct (get_unmodified_buckets_run os client cutoff (max_workers args)
                p1) as [results [records [Hrun _]]].
    rewrite Hscan in Hrun. inversion Hrun; subst p2. simpl.
    pose proof (get_storage_client_files os (project_id args)
                  (add_log q [searching_record args])) as H1.
    rewrite Hclient in H1. exact H1. }
  split; [exact Hmain|]. rewrite Hmain.
  destruct (target_opened os (r :: rs) (output args)); simpl;
    rewrite Hfiles.
  - split; [|discriminate].
    intros f Hne. apply lookup_insert_ne. congruence.
  - split; reflexivity.
Qed.

Lemma found_is_logged_when_write_fails_witness :
  let p1 := with_project "demo-project"
              (add_log More.shell_with_files
                 [searching_record More.args_read_only]) in
  let p2 := add_log p1
              [undated_error "stale-undated";
               scan_error "flaky" Sample.unavailable;
               scan_error "locked" Sample.forbidden] in
  let e := mk_exn PermissionError
             "[Errno 13] Permission denied: '/proc/report.xlsx'" in
  write_fails Sample.os More.results (output More.args_read_only) e
  /\ get_unmodified_buckets Sample.os Sample.client Sample.cutoff 10 p1
     = (Return More.results, p2)
  /\ main Sample.os More.args_read_only More.shell_with_files
     = (Return tt, add_log p2 [write_error e; found_record 2])
  /\ files (snd (main Sample.os More.args_read_only More.shell_with_files))
     = files More.shell_with_files.
Proof.
  cbv zeta.
  assert (Hfail : write_fails Sample.os
                    (result_for "boundary" Sample.boundary
                     :: [result_for "archive" Sample.archive])
                    (output More.args_read_only)
                    (mk_exn PermissionError
                       "[Errno 13] Permission denied: '/proc/report.xlsx'")).
  { right. eexists. split; vm_compute; reflexivity. }
  assert (Hscan :
            get_unmodified_buckets Sample.os Sample.client Sample.cutoff
              (max_workers More.args_read_only)
              (with_project "demo-project"
                 (add_log More.shell_with_files
                    [searching_record More.args_read_only]))
            = (Return (result_for "boundary" Sample.boundary
                       :: [result_for "archive" Sample.archive]),
               add_log
                 (with_project "demo-project"
                    (add_log More.shell_with_files
                       [searching_record More.args_read_only]))
                 [undated_error "stale-undated";
                  scan_error "flaky" Sample.unavailable;
                  scan_error "locked" Sample.forbidden]))
    by (vm_compute; reflexivity).
  assert (Hclient :
            get_storage_client Sample.os (project_id More.args_read_only)
              (add_log More.shell_with_files
                 [searching_record More.args_read_only])
            = (Return Sample.client,
               with_project "demo-project"
                 (add_log More.shell_with_files
                    [searching_record More.args_read_only])))
    by (vm_compute; reflexivity).
  destruct (found_is_logged_when_write_fails Sample.os More.args_read_only
              More.shell_with_files Sample.cutoff Sample.client _ _
              (result_for "boundary" Sample.boundary)
              [result_for "archive" Sample.archive]
              (mk_exn PermissionError
                 "[Errno 13] Permission denied: '/proc/report.xlsx'")
              eq_refl Hclient Hscan Hfail) as [Hmain [_ Hfiles]].
  split; [exact Hfail|]. split; [exact Hscan|]. split.
  - rewrite Hmain. reflexivity.
  - apply Hfiles. reflexivity.
Defined.

(** X19.  Whatever happens in a run, [main] changes no file but the one
    at the output path and no environment variable but
    [GOOGLE_CLOUD_PROJECT], and it only adds to the log. *)
Theorem main_touches_output_and_project_only (os : platform)
    (args : arguments) (q : process) :
  (forall f, f <> output args ->
     files (snd (main os args q)) !! f = files q !! f)
  /\ (forall k, k <> "GOOGLE_CLOUD_PROJECT" ->
        environ (snd (main os args q)) !! k = environ q !! k)
  /\ exists records, log (snd (main os args q)) = log q ++ records.
Proof.
  destruct (strptime_Ymd os (cutoff_date args)) as [cutoff|e] eqn:Hparse.
  2:{ rewrite (main_invalid_date os args q e Hparse).
      destruct (isinstance e [ValueError]); simpl.
      - split; [reflexivity|]. split; [reflexivity|]. eexists. reflexivity.
      - split; [reflexivity|]. split; [reflexivity|]. exists [].
        now rewrite app_nil_r. }
  rewrite (main_run os args q cutoff Hparse).
  pose proof (get_storage_client_files os (project_id args)
                (add_log q [searching_record args])) as Hf.
  pose proof (get_storage_client_environ os (project_id args)
                (add_log q [searching_record args])) as He.
  pose proof (get_storage_client_log os (project_id args)
                (add_log q [searching_record args])) as Hl.
  destruct (get_storage_client os (project_id args) _) as [[client|e] p1];
    simpl in Hf, He, Hl.
  2:{ simpl. rewrite Hf, He, Hl. split; [reflexivity|].
      split; [intros k Hk; now apply lookup_insert_ne|].
      eexists. rewrite <- !app_assoc. reflexivity. }
  destruct (get_unmodified_buckets_run os client cutoff (max_workers args)
              p1) as [results [records [-> _]]].
  destruct results as [|r rs]; simpl.
  { rewrite Hf, He, Hl. split; [reflexivity|].
    split; [intros k Hk; now apply lookup_insert_ne|].
    eexists. rewrite <- !app_assoc. reflexivity. }
  destruct (write_to_excel_frame os (r :: rs) (output args)
              (add_log p1 records))
    as [p3 [-> [He3 [Hf3 [records3 Hl3]]]]].
  simpl in *. rewrite He3, Hl3, He, Hl.
  split.
  - intros f Hne. rewrite (Hf3 f Hne). now rewrite Hf.
  - split; [intros k Hk; now apply lookup_insert_ne|].
    eexists. rewrite <- !app_assoc. reflexivity.
Qed.

(** X20.  A run that finds buckets, builds the workbook and can write it
    ends with that workbook at the output path and with the two records
    "Results written to ..." and "Found N unmodified buckets", in that
    order, after the records of the scan, where N is the number of Scan
    Results. *)
Theorem successful_run_reports_count (os : platform) (args : arguments)
    (q : process) (cutoff : naive_datetime) (client : Client.t)
    (p1 p2 : process) (r : ScanResult.t) (rs : list ScanResult.t)
    (wb : worksheet) :
  strptime_Ymd os (cutoff_date args) = Return cutoff ->
  get_storage_client os (project_id args) (add_log q [searching_record args])
  = (Return client, p1) ->
  get_unmodified_buckets os client cutoff (max_workers args) p1
  = (Return (r :: rs), p2) ->
  build_workbook (r :: rs) = Return wb ->
  save_error os (output args) = None ->
  main os args q
  = (Return tt,
     add_log (with_file (output args) wb p2)
       [written_record (output args); found_record (S (length rs))]).
Proof.
  intros Hparse Hclient Hscan Hbuild Hsave.
  rewrite (main_run os args q cutoff Hparse), Hclient, Hscan.
  rewrite write_to_excel_run, Hbuild, Hsave. now rewrite add_log_app.
Qed.

Lemma successful_run_reports_count_witness :
  let p1 := with_project "demo-project"
              (add_log Sample.shell [searching_record Sample.args]) in
  let p2 := add_log p1
              [undated_error "stale-undated";
               scan_error "flaky" Sample.unavailable;
               scan_error "locked" Sample.forbidden] in
  build_workbook More.results = Return (build_sheet More.results)
  /\ save_error Sample.os (output Sample.args) = None
  /\ get_unmodified_buckets Sample.os Sample.client Sample.cutoff 10 p1
     = (Return More.results, p2)
  /\ main Sample.os Sample.args Sample.shell
     = (Return tt,
        add_log
          (with_file "unmodified_buckets.xlsx" (build_sheet More.results) p2)
          [written_record "unmodified_buckets.xlsx"; found_record 2]).
Proof.
  cbv zeta.
  assert (Hbuild : build_workbook
                     (result_for "boundary" Sample.boundary
                      :: [result_for "archive" Sample.archive])
                   = Return (build_sheet More.results))
    by (vm_compute; reflexivity).
  assert (Hclient :
            get_storage_client Sample.os (project_id Sample.args)
              (add_log Sample.shell [searching_record Sample.args])
            = (Return Sample.client,
               with_project "demo-project"
                 (add_log Sample.shell [searching_record Sample.args])))
    by (vm_compute; reflexivity).
  assert (Hscan :
            get_unmodified_buckets Sample.os Sample.client Sample.cutoff
              (max_workers Sample.args)
              (with_project "demo-project"
                 (add_log Sample.shell [searching_record Sample.args]))
            = (Return (result_for "boundary" Sample.boundary
                       :: [result_for "archive" Sample.archive]),
               add_log
                 (with_project "demo-project"
                    (add_log Sample.shell [searching_record Sample.args]))
                 [undated_error "stale-undated";
                  scan_error "flaky" Sample.unavailable;
                  scan_error "locked" Sample.forbidden]))
    by (vm_compute; reflexivity).
  split; [exact Hbuild|]. split; [reflexivity|]. split; [exact Hscan|].
  exact (successful_run_reports_count Sample.os Sample.args Sample.shell
           Sample.cutoff Sample.client _ _
           (result_for "boundary" Sample.boundary)
           [result_for "archive" Sample.archive]
           (build_sheet More.results)
           eq_refl Hclient Hscan Hbuild eq_refl).
Defined.
